(** * SEO title predictor: the dashboard's pipeline, embedded and verified

    Source: [seo_predictor_app.py].  The development follows the file from
    the bottom up: Python's string operations used by the heuristic, the
    heuristic and its label, the Search Console fetch helpers, the ranking
    panel's click-through rate, and the forecast wrapper. *)

From Stdlib Require Import ZArith List Bool Ascii String Lia.
From Stdlib Require Import Permutation Sorted QArith Qround.
Import ListNotations.

Local Open Scope Z_scope.

(* ===================================================================== *)
(** ** Python strings *)
(* ===================================================================== *)

(** A Python [str] is a sequence of code points.  The model keeps the code
    points below 256 (ASCII and the Latin-1 supplement), one [ascii] each;
    on that range [str.lower] is a map on single characters. *)
Definition str := list ascii.

(** A literal of the source, as a [str]. *)
Definition py (s : string) : str := list_ascii_of_string s.

(** [str.isspace] on one character: TAB..CR, FS..US, SPACE, NEL, NBSP. *)
Definition isspace (c : ascii) : bool :=
  let n := N_of_ascii c in
  ((9 <=? n) && (n <=? 13) || (28 <=? n) && (n <=? 32)
   || (n =? 133) || (n =? 160))%N.

(** [str.lower] on one character: A..Z, and the Latin-1 capitals
    U+00C0..U+00DE without the multiplication sign U+00D7, move up by 32. *)
Definition lower_char (c : ascii) : ascii :=
  let n := N_of_ascii c in
  if ((65 <=? n) && (n <=? 90)
      || (192 <=? n) && (n <=? 222) && negb (n =? 215))%N
  then ascii_of_N (n + 32) else c.

Definition lower (s : str) : str := map lower_char s.

(** [str.lstrip()], [str.rstrip()] and [str.strip()] without argument. *)
Fixpoint lstrip (s : str) : str :=
  match s with
  | [] => []
  | c :: s' => if isspace c then lstrip s' else s
  end.

Definition rstrip (s : str) : str := rev (lstrip (rev s)).

Definition strip (s : str) : str := rstrip (lstrip s).

(** [s.startswith(p)] *)
Fixpoint startswith (p s : str) : bool :=
  match p, s with
  | [], _ => true
  | _ :: _, [] => false
  | a :: p', b :: s' => Ascii.eqb a b && startswith p' s'
  end.

(** [sub in s]: some position of [s] starts an occurrence of [sub]. *)
Fixpoint str_in (sub s : str) : bool :=
  match s with
  | [] => startswith sub []
  | _ :: s' => startswith sub s || str_in sub s'
  end.

(* ===================================================================== *)
(** ** The SEO heuristic (source lines 115-116 and 132-133) *)
(* ===================================================================== *)

Definition keyword_in_title (title kw : str) : bool :=
  str_in (lower (strip kw)) (lower (strip title)).

(** [conf = 80 if keyword_in_title(title, keyword) else 50] *)
Definition conf (title keyword : str) : Z :=
  if keyword_in_title title keyword then 80 else 50.

(** The two label literals of the source: the spec's class name followed by
    a blank and a status mark (U+2705, U+274C), held here in UTF-8. *)
Definition check_mark : string :=
  String (ascii_of_nat 226) (String (ascii_of_nat 156)
    (String (ascii_of_nat 133) EmptyString)).

Definition cross_mark : string :=
  String (ascii_of_nat 226) (String (ascii_of_nat 157)
    (String (ascii_of_nat 140) EmptyString)).

Definition label_optimizable : string :=
  ("Optimizable" ++ " " ++ check_mark)%string.

Definition label_not_optimizable : string :=
  ("Not Optimizable" ++ " " ++ cross_mark)%string.

(** [label = "Optimizable .." if conf > 70 else "Not Optimizable .."] *)
Definition label (c : Z) : string :=
  if 70 <? c then label_optimizable else label_not_optimizable.

(** What the "Run Prediction" button shows first: the label and the score. *)
Definition seo_prediction (title keyword : str) : string * Z :=
  let c := conf title keyword in (label c, c).

(** The class name a label literal carries: the text before its mark. *)
Definition class_name (l : string) : string :=
  substring 0 (String.length l - 4) l.

(* ===================================================================== *)
(** ** Exceptions *)
(* ===================================================================== *)

(** The exceptions the modelled code can raise.  [AuthError] and
    [QueryError] are whatever the credential loader and the remote call
    raise; [InsufficientDataError] is the spec's name for the forecasting
    library's refusal of a short history. *)
Inductive exn : Type :=
| KeyError (key : string)
| IndexError
| OverflowError
| AuthError
| QueryError
| NotFitted
| InsufficientDataError.

Inductive result (A : Type) : Type :=
| Ok (a : A)
| Raise (e : exn).

Arguments Ok {A} a.
Arguments Raise {A} e.

Definition bind {A B : Type} (c : result A) (k : A -> result B) : result B :=
  match c with
  | Ok a => k a
  | Raise e => Raise e
  end.

Notation "x <- c ;; k" := (bind c (fun x => k))
  (at level 61, c at next level, right associativity).

(** A list comprehension whose element expression may raise: the first
    raising element aborts the whole comprehension. *)
Fixpoint comprehension {A B : Type} (f : A -> result B) (l : list A)
  : result (list B) :=
  match l with
  | [] => Ok []
  | a :: l' => b <- f a ;; bs <- comprehension f l' ;; Ok (b :: bs)
  end.

(* ===================================================================== *)
(** ** Calendar dates *)
(* ===================================================================== *)

(** A [datetime.date], by its proleptic Gregorian ordinal
    ([date.toordinal()]): 1 is 0001-01-01 and 3652059 is 9999-12-31. *)
Definition date := Z.

Definition date_min : date := 1.
Definition date_max : date := 3652059.

(** [datetime.timedelta(days=n)]: at most 999999999 days either way. *)
Definition timedelta (days : Z) : result Z :=
  if Z.abs days <=? 999999999 then Ok days else Raise OverflowError.

(** [d - delta] on a date: the result must be a date again. *)
Definition date_sub (d : date) (delta : Z) : result date :=
  let o := d - delta in
  if (date_min <=? o) && (o <=? date_max) then Ok o else Raise OverflowError.

(* ===================================================================== *)
(** ** The Search Console client (source lines 12-104) *)
(* ===================================================================== *)

Definition SITE_URL : str := py "https://locusit.se/".
Definition MAX_HISTORY : Z := 90.

(** One entry of ["dimensionFilterGroups"][i]["filters"]. *)
Record Filter : Type := mkFilter {
  dimension : string;
  operator : string;
  expression : str
}.

(** The request body.  [startDate] and [endDate] hold the dates whose ISO
    rendering ([str(start)], [str(today)]) the source puts there; a key the
    source leaves out of the dict is [None]. *)
Record Body : Type := mkBody {
  startDate : date;
  endDate : date;
  dimensions : list string;
  dimensionFilterGroups : option (list (list Filter));
  rowLimit : Z;
  metrics : option (list string)
}.

(** One row of the response: a dict in which every key may be absent.  [K]
    is the type of the dimension values: dates for the ["date"] dimension
    (the wire carries their ISO text, which [pd.to_datetime] reads back),
    text for the ["query"] dimension. *)
Record Row (K : Type) : Type := mkRow {
  keys : option (list K);
  clicks : option Z;
  impressions : option Z
}.

Arguments mkRow {K} keys clicks impressions.
Arguments keys {K} r.
Arguments clicks {K} r.
Arguments impressions {K} r.

(** The response: a dict whose ["rows"] key may be absent. *)
Record Response (K : Type) : Type := mkResponse {
  rows : option (list (Row K))
}.

Arguments mkResponse {K} rows.
Arguments rows {K} r.

(** [svc.searchanalytics().query(siteUrl=SITE_URL, body=body).execute()],
    as a function of the body.  The helpers below take the outcome of
    [gsc_service()] and the value of [datetime.date.today()] as arguments;
    the [st.cache_data] decorator in front of them is left out, so each
    call stands for one that is not served from the cache. *)
Definition Service (K : Type) : Type := Body -> result (Response K).

(** [d.get(key, default)] on an optional entry. *)
Definition get {A : Type} (entry : option A) (default : A) : A :=
  match entry with
  | Some a => a
  | None => default
  end.

(** [r["keys"][0]] *)
Definition first_key {K : Type} (r : Row K) : result K :=
  match keys r with
  | None => Raise (KeyError "keys")
  | Some [] => Raise IndexError
  | Some (k :: _) => Ok k
  end.

(** A row of a time-series frame: columns ["ds"] and ["y"]. *)
Record Point : Type := mkPoint {
  ds : date;
  y : Z
}.

(** [pd.DataFrame({"ds": dates, "y": values})], row by row.  Both columns
    come from comprehensions over the same rows, so they are equally long. *)
Definition data_frame (dates : list date) (values : list Z) : list Point :=
  map (fun dv => mkPoint (fst dv) (snd dv)) (combine dates values).

(** [.sort_values("ds")]: the rows in ascending date order.  Rows of equal
    date keep their relative order here; pandas' default sort does not
    promise that, and no statement below depends on it. *)
Fixpoint insert_by_ds (p : Point) (l : list Point) : list Point :=
  match l with
  | [] => [p]
  | q :: l' => if ds p <=? ds q then p :: l else q :: insert_by_ds p l'
  end.

Definition sort_values_ds (df : list Point) : list Point :=
  fold_right insert_by_ds [] df.

(** The frame the three time-series helpers build from the response rows
    (source lines 31-35, 75-79 and 100-104, the same text three times). *)
Definition time_series_frame (resp : Response date) : result (list Point) :=
  let rs := get (rows resp) [] in
  dates <- comprehension first_key rs ;;
  Ok (sort_values_ds (data_frame dates (map (fun r => get (clicks r) 0) rs))).

Definition fetch_site_data (gsc_service : result (Service date))
    (today : date) (days : Z) : result (list Point) :=
  svc <- gsc_service ;;
  delta <- timedelta days ;;
  start <- date_sub today delta ;;
  let body := mkBody start today ["date"%string] None 10000 None in
  resp <- svc body ;;
  time_series_frame resp.

(** A row of the query table: columns ["keyword"], ["clicks"] and
    ["impressions"]. *)
Record QueryRow : Type := mkQueryRow {
  keyword : str;
  q_clicks : Z;
  q_impressions : Z
}.

Definition query_row (r : Row str) : result QueryRow :=
  k <- first_key r ;;
  Ok (mkQueryRow k (get (clicks r) 0) (get (impressions r) 0)).

Definition fetch_queries_df (gsc_service : result (Service str))
    (today : date) (days limit : Z) : result (list QueryRow) :=
  svc <- gsc_service ;;
  delta <- timedelta days ;;
  start <- date_sub today delta ;;
  let body := mkBody start today ["query"%string] None limit
                (Some ["clicks"%string; "impressions"%string]) in
  resp <- svc body ;;
  comprehension query_row (get (rows resp) []).

(** [s.rstrip(chars)] *)
Fixpoint lstrip_chars (chars s : str) : str :=
  match s with
  | [] => []
  | c :: s' =>
      if existsb (Ascii.eqb c) chars then lstrip_chars chars s' else s
  end.

Definition rstrip_chars (chars s : str) : str :=
  rev (lstrip_chars chars (rev s)).

Definition fetch_page_data (gsc_service : result (Service date))
    (today : date) (path : str) (days : Z) : result (list Point) :=
  svc <- gsc_service ;;
  delta <- timedelta days ;;
  start <- date_sub today delta ;;
  let body :=
    mkBody start today ["date"%string]
      (Some [[mkFilter "page" "equals"
                (rstrip_chars (py "/") SITE_URL ++ path)]])
      10000 None in
  resp <- svc body ;;
  time_series_frame resp.

Definition fetch_keyword_data (gsc_service : result (Service date))
    (today : date) (kw : str) (days : Z) : result (list Point) :=
  svc <- gsc_service ;;
  delta <- timedelta days ;;
  start <- date_sub today delta ;;
  let body :=
    mkBody start today ["date"%string]
      (Some [[mkFilter "query" "equals" kw]])
      10000 None in
  resp <- svc body ;;
  time_series_frame resp.

(** The requests of the four helpers, for stating what is sent. *)
Definition site_body (today : date) (days : Z) : Body :=
  mkBody (today - days) today ["date"%string] None 10000 None.

Definition queries_body (today : date) (days limit : Z) : Body :=
  mkBody (today - days) today ["query"%string] None limit
    (Some ["clicks"%string; "impressions"%string]).

Definition page_body (today : date) (path : str) (days : Z) : Body :=
  mkBody (today - days) today ["date"%string]
    (Some [[mkFilter "page" "equals" (py "https://locusit.se" ++ path)]])
    10000 None.

Definition keyword_body (today : date) (kw : str) (days : Z) : Body :=
  mkBody (today - days) today ["date"%string]
    (Some [[mkFilter "query" "equals" kw]]) 10000 None.

(** The dates of a frame, and the inclusive range of a request. *)
Definition dates_of (df : list Point) : list date := map ds df.

Definition in_range (lo hi d : date) : Prop := lo <= d <= hi.

(** The spec's TimeSeriesPoint invariant on a frame. *)
Definition strictly_increasing (l : list date) : Prop :=
  StronglySorted Z.lt l.

Definition time_series_invariant (df : list Point) : Prop :=
  strictly_increasing (dates_of df) /\ Forall (fun p => 0 <= y p) df.

(** The three helpers that return a time series, under one name. *)
Inductive TimeSeriesFetch : Type :=
| SiteData
| PageData (path : str)
| KeywordData (kw : str).

Definition fetch_time_series (f : TimeSeriesFetch)
    (gsc_service : result (Service date)) (today : date) (days : Z)
  : result (list Point) :=
  match f with
  | SiteData => fetch_site_data gsc_service today days
  | PageData path => fetch_page_data gsc_service today path days
  | KeywordData kw => fetch_keyword_data gsc_service today kw days
  end.

Definition time_series_body (f : TimeSeriesFetch) (today : date) (days : Z)
  : Body :=
  match f with
  | SiteData => site_body today days
  | PageData path => page_body today path days
  | KeywordData kw => keyword_body today kw days
  end.

(** The [days] for which the start date exists: the date arithmetic of the
    helpers raises on the others. *)
Definition window_ok (today : date) (days : Z) : Prop :=
  Z.abs days <= 999999999 /\ date_min <= today - days <= date_max.

(** A row whose [r["keys"][0]] exists. *)
Definition has_first_key {K : Type} (r : Row K) : Prop :=
  exists k rest, keys r = Some (k :: rest).

(** The point a response row stands for, with the default of
    [r.get("clicks", 0)] applied. *)
Definition point_of_row (r : Row date) : Point :=
  mkPoint
    (match keys r with
     | Some (k :: _) => k
     | _ => date_min
     end)
    (get (clicks r) 0).

Definition non_decreasing (l : list date) : Prop := StronglySorted Z.le l.

(** Sample remote sources.  Today is 2026-11-03 (ordinal 739923); the
    first source answers with one row dated 2020-01-01 (ordinal 737425),
    the second with two rows of the same date, the third with a negative
    click count. *)
Definition sample_today : date := 739923.

Definition stale_service : Service date :=
  fun _ => Ok (mkResponse (Some [mkRow (Some [737425]) (Some 5) None])).

Definition repeating_service : Service date :=
  fun _ =>
    Ok (mkResponse
          (Some [mkRow (Some [739900]) (Some 3) None;
                 mkRow (Some [739900]) (Some 4) None])).

Definition negative_service : Service date :=
  fun _ => Ok (mkResponse (Some [mkRow (Some [739900]) (Some (-1)) None])).

(** A remote source that honours the requested range: one row per day of
    the range, each with that day's ordinal modulo 7 as its clicks. *)
Definition daily_service : Service date :=
  fun body =>
    Ok (mkResponse
          (Some (map (fun i =>
                        let d := startDate body + Z.of_nat i in
                        mkRow (Some [d]) (Some (d mod 7)) None)
                   (seq 0 (Z.to_nat (endDate body - startDate body + 1)))))).

(** What [daily_service] answers when asked for the last two days. *)
Definition sample_response : Response date :=
  mkResponse
    (Some [mkRow (Some [739921]) (Some 0) None;
           mkRow (Some [739922]) (Some 1) None;
           mkRow (Some [739923]) (Some 2) None]).

Definition sample_series : list Point :=
  [mkPoint 739921 0; mkPoint 739922 1; mkPoint 739923 2].

(** A remote source whose only row has a key and no metric. *)
Definition bare_response : Response date :=
  mkResponse (Some [mkRow (Some [739900]) None None]).

Definition bare_service : Service date := fun _ => Ok bare_response.

(** A remote source whose only query row lacks ["impressions"]. *)
Definition partial_response : Response str :=
  mkResponse (Some [mkRow (Some [py "seo"]) (Some 5) None]).

Definition partial_service : Service str := fun _ => Ok partial_response.

(** Remote sources without matching rows: no ["rows"] key at all. *)
Definition empty_service (K : Type) : Service K :=
  fun _ => Ok (mkResponse None).

(* ===================================================================== *)
(** ** The ranking panel's click-through rate (source lines 168-176) *)
(* ===================================================================== *)

(** A float64 as numpy produces it: a finite number, kept exact here
    (rounding to the nearest double is left out), or a special value. *)
Inductive float : Type :=
| Fin (q : Q)
| PInf
| NInf
| NaN.

(** [a / b] on two int64 columns, element by element: numpy's true
    division, which raises nothing and yields [inf], [-inf] or [nan] on a
    zero divisor. *)
Definition true_divide (a b : Z) : float :=
  if b =? 0 then
    if a =? 0 then NaN else if 0 <? a then PInf else NInf
  else Fin (Qmake (a * Z.sgn b) (Z.to_pos (Z.abs b))).

Definition isnan (x : float) : bool :=
  match x with
  | NaN => true
  | _ => false
  end.

Definition fadd (a b : float) : float :=
  match a, b with
  | Fin p, Fin q => Fin (p + q)
  | NaN, _ | _, NaN => NaN
  | PInf, NInf | NInf, PInf => NaN
  | PInf, _ | _, PInf => PInf
  | NInf, _ | _, NInf => NInf
  end.

(** [x * k] and [x / k] for a finite [k > 0]. *)
Definition fscale (k : Q) (x : float) : float :=
  match x with
  | Fin q => Fin (q * k)
  | other => other
  end.

(** [Series.mean()]: NaN entries are skipped; the rest are summed and
    divided by their number; no entry left gives NaN. *)
Definition mean (xs : list float) : float :=
  let kept := filter (fun x => negb (isnan x)) xs in
  match kept with
  | [] => NaN
  | _ :: _ =>
      fscale (1 / inject_Z (Z.of_nat (List.length kept)))
        (fold_left fadd kept (Fin 0))
  end.

(** Rounding to the nearest integer, ties to even. *)
Definition rint (q : Q) : Z :=
  let n := Qfloor q in
  match Qcompare (q - inject_Z n) (1 # 2) with
  | Lt => n
  | Gt => n + 1
  | Eq => if Z.even n then n else n + 1
  end.

(** [round(x, 2)] on a float64. *)
Definition round2 (x : float) : float :=
  match x with
  | Fin q => Fin (Qmake (rint (q * 100)) 100)
  | other => other
  end.

(** The column [df_r["clicks"] / df_r["impressions"]]. *)
Definition row_ctr (r : QueryRow) : float :=
  true_divide (q_clicks r) (q_impressions r).

Definition ctr_column (df_r : list QueryRow) : list float := map row_ctr df_r.

(** What the "Load Ranking" button shows for a fetched table. *)
Inductive RankingPanel : Type :=
| RankingWarning (msg : string)
| RankingMetrics (total_clicks : Z) (avg_ctr_percent : float).

Definition keyword_ranking (df_r : list QueryRow) : RankingPanel :=
  match df_r with
  | [] => RankingWarning "No query data."
  | _ :: _ =>
      RankingMetrics
        (fold_right Z.add 0 (map q_clicks df_r))
        (round2 (fscale 100 (mean (ctr_column df_r))))
  end.

(** The claim's reading of an acceptable rate on a row without
    impressions: zero, or the undefined value. *)
Definition zero_or_undefined (x : float) : Prop :=
  match x with
  | Fin q => Qeq q 0
  | NaN => True
  | PInf | NInf => False
  end.

(* ===================================================================== *)
(** ** Forecasting (source lines 107-112) *)
(* ===================================================================== *)

(** One row of the forecast frame. *)
Record Projection : Type := mkProjection {
  p_ds : date;
  point_estimate : Q;
  lower_bound : Q;
  upper_bound : Q
}.

(** Modelled from the spec: the forecasting library's model object
    ([prophet.Prophet]), whose code is not part of the repository.  Of the
    constructor's settings only [daily_seasonality] is passed by the
    source; [history] is what [fit] records. *)
Record Prophet : Type := mkProphet {
  daily_seasonality : bool;
  history : option (list Point)
}.

Definition distinct_dates (df : list Point) : list date :=
  nodup Z.eq_dec (dates_of df).

(** The last observed date of a history. *)
Definition last_date (df : list Point) : date := last (dates_of df) date_min.

(** Modelled from the spec: [Prophet.fit], "[series] must contain at least
    two points with distinct dates; fewer points fails with
    [InsufficientDataError]". *)
Definition fit (m : Prophet) (df : list Point) : result Prophet :=
  if (List.length (distinct_dates df) <? 2)%nat then Raise InsufficientDataError
  else Ok (mkProphet (daily_seasonality m) (Some df)).

(** Modelled from the spec: [Prophet.make_future_dataframe], "the forecast
    cover exactly [horizon_days] future calendar days contiguous with the
    last observed date"; the history's own dates come first. *)
Definition make_future_dataframe (m : Prophet) (periods : Z)
  : result (list date) :=
  match history m with
  | None => Raise NotFitted
  | Some h =>
      Ok (dates_of h
          ++ map (fun i => last_date h + Z.of_nat i)
               (seq 1 (Z.to_nat periods)))
  end.

Section Forecast.

(** Modelled from the spec: the fitted regression, "an opaque library
    call" giving a point estimate and interval bounds for a date. *)
Variable regression : Prophet -> date -> Q * (Q * Q).

(** Modelled from the spec: [Prophet.predict], one row per requested
    date. *)
Definition predict (m : Prophet) (future : list date)
  : result (list Projection) :=
  match history m with
  | None => Raise NotFitted
  | Some _ =>
      Ok (map (fun d =>
                 let e := regression m d in
                 mkProjection d (fst e) (fst (snd e)) (snd (snd e)))
            future)
  end.

(** The source's [forecast]: [m.fit(df)] updates [m] in place, so the
    fitted model is threaded through the two later calls. *)
Definition forecast (df : list Point) (days_ahead : Z)
  : result (Prophet * list Projection) :=
  let m := mkProphet true None in
  m <- fit m df ;;
  future <- make_future_dataframe m days_ahead ;;
  fc <- predict m future ;;
  Ok (m, fc).

End Forecast.

(** The spec's ForecastResult, read off what [forecast] returns: the
    history the model was fitted on, and the rows dated after its end. *)
Definition result_history (r : Prophet * list Projection) : list Point :=
  get (history (fst r)) [].

Definition projected (r : Prophet * list Projection) : list Projection :=
  filter (fun row => last_date (result_history r) <? p_ds row) (snd r).

(** The [n] calendar days after [d]: [d+1 .. d+n]. *)
Definition days_after (d : date) (n : Z) : list date :=
  map (fun i => d + Z.of_nat i) (seq 1 (Z.to_nat n)).

(** The spec's valid history: the TimeSeriesPoint invariant, and at least
    two points. *)
Definition valid_history (df : list Point) : Prop :=
  time_series_invariant df /\ (2 <= List.length df)%nat.

(** A stand-in for the fitted regression: every estimate is the mean
    daily value 1, with bounds 0 and 2. *)
Definition flat_regression (m : Prophet) (d : date) : Q * (Q * Q) :=
  (1%Q, (0%Q, 2%Q)).

(** A history that observes one date twice. *)
Definition one_day_twice : list Point :=
  [mkPoint 739921 0; mkPoint 739921 3].

(** The spec's reading of "is a substring of". *)
Definition is_substring (a b : str) : Prop :=
  exists pre post, b = pre ++ a ++ post.

(** [str.upper] on one character.  It is not a map on characters: the
    upper case of U+00DF (sharp s) is the two letters "SS", and the upper
    case of U+00B5 (micro sign) and of U+00FF lies beyond code point 255,
    outside the strings kept here ([None]).  a..z, and the Latin-1 small
    letters U+00E0..U+00FE without the division sign U+00F7, move down by
    32; every other character is its own upper case. *)
Definition upper_char (c : ascii) : option str :=
  let n := N_of_ascii c in
  if ((n =? 181) || (n =? 255))%N then None
  else if (n =? 223)%N then Some (py "SS")
  else if ((97 <=? n) && (n <=? 122)
           || (224 <=? n) && (n <=? 254) && negb (n =? 247))%N
  then Some [ascii_of_N (n - 32)]
  else Some [c].

(** [str.upper] on a string whose upper case stays below code point 256. *)
Fixpoint upper (s : str) : option str :=
  match s with
  | [] => Some []
  | c :: s' =>
      match upper_char c, upper s' with
      | Some u, Some us => Some (u ++ us)
      | _, _ => None
      end
  end.

(** The German word "strasse" written with a sharp s (U+00DF). *)
Definition strasse : str := py "stra" ++ [ascii_of_nat 223] ++ py "e".



(** A number that an int64 column holds without wrapping. *)
Definition int64 (z : Z) : Prop := - 2 ^ 63 <= z < 2 ^ 63.

(** A click count small enough for the float64 sum of seven of them to be
    exact. *)
Definition exact_in_float (z : Z) : Prop := Z.abs z <= 2 ^ 50.

(** A run of whitespace. *)
Definition blank (w : str) : Prop := Forall (fun c => isspace c = true) w.

(* ===================================================================== *)
(** ** The four panels (source lines 124-202) *)
(* ===================================================================== *)

(** More float64 arithmetic, as far as the panels use it.  Signed zeros
    are not told apart: a zero divisor counts as [+0.0]. *)
Definition fneg (x : float) : float :=
  match x with
  | Fin q => Fin (- q)
  | PInf => NInf
  | NInf => PInf
  | NaN => NaN
  end.

Definition fsub (a b : float) : float := fadd a (fneg b).

Definition fdiv (a b : float) : float :=
  match a, b with
  | NaN, _ | _, NaN => NaN
  | Fin p, Fin q =>
      if Qeq_bool q 0 then
        match Qcompare p 0 with
        | Eq => NaN
        | Gt => PInf
        | Lt => NInf
        end
      else Fin (p / q)
  | Fin _, (PInf | NInf) => Fin 0
  | (PInf | NInf), (PInf | NInf) => NaN
  | PInf, Fin q => if Qle_bool 0 q then PInf else NInf
  | NInf, Fin q => if Qle_bool 0 q then NInf else PInf
  end.

(** Truth value of a float: only zero is false, NaN is true. *)
Definition truthy (x : float) : bool :=
  match x with
  | Fin q => negb (Qeq_bool q 0)
  | _ => true
  end.

(** [x or d] *)
Definition or_else (x d : float) : float := if truthy x then x else d.

(** [Series.sum()] and [Series.mean()] on an int64 column; the mean of an
    empty column is NaN. *)
Definition sum_int (l : list Z) : Z := fold_right Z.add 0 l.

Definition mean_int (l : list Z) : float :=
  match l with
  | [] => NaN
  | _ :: _ => Fin (inject_Z (sum_int l) / inject_Z (Z.of_nat (List.length l)))
  end.

(** [df.head(n)] and [df.tail(n)]: the first and the last [n] rows. *)
Definition head {A : Type} (n : nat) (df : list A) : list A := firstn n df.

Definition tail {A : Type} (n : nat) (df : list A) : list A :=
  skipn (List.length df - n) df.

(** The "Key Insights" of the first tab (source lines 141-145). *)
Record Insights : Type := mkInsights {
  total : Z;
  avg : float;
  pct : float
}.

Definition key_insights (df_site : list Point) : Insights :=
  let total := sum_int (map y df_site) in
  let avg := round2 (mean_int (map y df_site)) in
  let last7 := mean_int (map y (tail 7 df_site)) in
  let prev7 := or_else (mean_int (map y (head 7 df_site))) (Fin 1) in
  let pct := round2 (fscale 100 (fdiv (fsub last7 prev7) prev7)) in
  mkInsights total avg pct.

(** [df_q["keyword"]] on a frame built from a list of dicts: without rows
    the frame has no columns at all. *)
Definition keyword_column (df_q : list QueryRow) : result (list str) :=
  match df_q with
  | [] => Raise (KeyError "keyword")
  | _ :: _ => Ok (map keyword df_q)
  end.

(** What the first tab shows below the prediction.  The insights are
    written before [forecast] is called, so they stay on the page when the
    forecast raises. *)
Inductive SeoPanel : Type :=
| SiteWarning (msg : string)
| SiteForecast (insights : Insights)
    (chart : result (Prophet * list Projection))
| AlternativeKeywords (kws : list str).

(** What the third and the fourth tab show: a warning, or the line chart
    of the fetched series followed by the forecast, which may raise. *)
Inductive ForecastPanel : Type :=
| PanelWarning (msg : string)
| PanelForecast (line_chart : list Point)
    (chart : result (Prophet * list Projection)).

Section Tabs.

Variable regression : Prophet -> date -> Q * (Q * Q).

(** The outcome of [gsc_service()], once per shape of answer, and the
    value of [datetime.date.today()]. *)
Variable gsc_dates : result (Service date).
Variable gsc_queries : result (Service str).
Variable today : date.

(** Tab 1, "Run Prediction & Forecast": the metric is shown first, then
    the site forecast or the alternative keywords. *)
Definition seo_tab (title keyword : str) : (string * Z) * result SeoPanel :=
  let c := conf title keyword in
  let l := label c in
  ((l, c),
   if 70 <? c then
     df_site <- fetch_site_data gsc_dates today MAX_HISTORY ;;
     match df_site with
     | [] => Ok (SiteWarning "No GSC data for your site.")
     | _ :: _ =>
         Ok (SiteForecast (key_insights df_site)
               (forecast regression df_site 15))
     end
   else
     df_q <- fetch_queries_df gsc_queries today 30 5 ;;
     kws <- keyword_column df_q ;;
     Ok (AlternativeKeywords kws)).

(** Tab 2, "Load Ranking". *)
Definition ranking_tab (d n : Z) : result RankingPanel :=
  df_r <- fetch_queries_df gsc_queries today d n ;;
  Ok (keyword_ranking df_r).

(** Tab 3, "Fetch & Forecast Page". *)
Definition page_tab (path : str) : result ForecastPanel :=
  dfp <- fetch_page_data gsc_dates today path MAX_HISTORY ;;
  match dfp with
  | [] => Ok (PanelWarning "No data for that page.")
  | _ :: _ => Ok (PanelForecast dfp (forecast regression dfp 30))
  end.

(** Tab 4, "Fetch & Forecast Keyword". *)
Definition keyword_tab (kw : str) : result ForecastPanel :=
  dfk <- fetch_keyword_data gsc_dates today kw MAX_HISTORY ;;
  match dfk with
  | [] => Ok (PanelWarning "No data for that keyword.")
  | _ :: _ => Ok (PanelForecast dfk (forecast regression dfk 4))
  end.

End Tabs.

(** A float that is an ordinary number. *)
Definition finite (x : float) : Prop := exists q, x = Fin q.

(** A float that is the number [v], whatever fraction represents it. *)
Definition float_is (x : float) (v : Q) : Prop :=
  exists q, x = Fin q /\ Qeq q v.

(** The first key of a query row, for rows that have one. *)
Definition term_of_row (r : Row str) : str :=
  match keys r with
  | Some (k :: _) => k
  | _ => []
  end.

(** A row whose rate the average skips: no clicks on no impressions. *)
Definition no_rate (r : QueryRow) : bool :=
  (q_impressions r =? 0) && (q_clicks r =? 0).

(** A time-series service that reports no rows, whatever is asked. *)
Definition reports_nothing {K : Type} (svc : Service K) : Prop :=
  forall body, exists resp, svc body = Ok resp /\ get (rows resp) [] = [].

(** Sample inputs for the panels. *)
Definition flat_week : list Point :=
  [mkPoint 739921 4; mkPoint 739922 4; mkPoint 739923 4].

Definition silent_week : list Point :=
  [mkPoint 739921 0; mkPoint 739922 0; mkPoint 739923 0].

Definition keyless_response : Response date :=
  mkResponse
    (Some [mkRow (Some [739921]) (Some 1) None;
           mkRow None (Some 2) None;
           mkRow (Some []) (Some 3) None]).

Definition keyless_service : Service date := fun _ => Ok keyless_response.

Definition shuffled_response : Response date :=
  mkResponse
    (Some [mkRow (Some [739923]) (Some 2) None;
           mkRow (Some [739921]) (Some 0) None;
           mkRow (Some [739922]) (Some 1) None]).

Definition shuffled_service : Service date := fun _ => Ok shuffled_response.

Definition sample_service : Service date := fun _ => Ok sample_response.

Definition terms_response : Response str :=
  mkResponse
    (Some [mkRow (Some [py "seo audit"]) (Some 5) (Some 50);
           mkRow (Some [py "seo tools"]) None (Some 20)]).

Definition terms_service : Service str := fun _ => Ok terms_response.

Definition keyless_terms_response : Response str :=
  mkResponse
    (Some [mkRow (Some [py "seo"]) None None;
           mkRow (Some []) (Some 1) (Some 2)]).

Definition keyless_terms_service : Service str :=
  fun _ => Ok keyless_terms_response.

Definition first_week : list Point :=
  map (fun i => mkPoint (739800 + Z.of_nat i) 2) (seq 0 7).

Definition last_week : list Point :=
  map (fun i => mkPoint (739900 + Z.of_nat i) 3) (seq 0 7).

Definition sample_ranking : list QueryRow :=
  [mkQueryRow (py "seo audit") 5 50; mkQueryRow (py "seo tools") 0 0].

(* ===================================================================== *)
(** ** Facts about the string operations *)
(* ===================================================================== *)













Lemma lstrip_blank_app (w s : str) : blank w -> lstrip (w ++ s) = lstrip s.
Proof.
  induction 1 as [| c w Hc _ IH]; simpl; [reflexivity |].
  now rewrite Hc.
Qed.

Lemma lstrip_blank (w : str) : blank w -> lstrip w = [].
Proof.
  intros H; rewrite <- (app_nil_r w); now rewrite lstrip_blank_app.
Qed.

Lemma blank_rev (w : str) : blank w -> blank (rev w).
Proof. intros H; now apply Forall_rev. Qed.


(** Stripping on the left either removes everything, and then the string
    was blank, or leaves a string that starts with a visible character and
    is untouched by what is appended. *)
Lemma lstrip_app_cases (s w : str) :
  (blank s /\ lstrip s = []) \/ lstrip (s ++ w) = lstrip s ++ w.
Proof.
  induction s as [| c s IH]; simpl.
  - left; split; [constructor | reflexivity].
  - destruct (isspace c) eqn:Hc.
    + destruct IH as [[Hb Hs] | IH]; [left | right; exact IH].
      split; [now constructor | exact Hs].
    + right; reflexivity.
Qed.


Lemma startswith_iff (p s : str) :
  startswith p s = true <-> exists post, s = p ++ post.
Proof.
  revert s; induction p as [| a p IH]; intros s; simpl.
  - split; [intros _; now exists s | reflexivity].
  - destruct s as [| b s].
    + split; [discriminate | intros [post H]; discriminate].
    + rewrite andb_true_iff, Ascii.eqb_eq, IH; split.
      * intros [-> [post ->]]; now exists post.
      * intros [post H]; injection H as -> ->; split; [reflexivity |].
        now exists post.
Qed.

Lemma str_in_iff (sub s : str) : str_in sub s = true <-> is_substring sub s.
Proof.
  unfold is_substring; induction s as [| c s IH]; simpl.
  - rewrite startswith_iff; split.
    + intros [post H]; now exists [], post.
    + intros [pre [post H]].
      destruct pre; [now exists post | discriminate].
  - rewrite orb_true_iff, startswith_iff, IH; split.
    + intros [[post H] | [pre [post H]]].
      * now exists [], post.
      * exists (c :: pre), post; simpl; now rewrite H.
    + intros [pre [post H]]; destruct pre as [| c' pre]; simpl in H.
      * left; now exists post.
      * right; injection H as _ H; now exists pre, post.
Qed.


Lemma conf_values (t k : str) : conf t k = 50 \/ conf t k = 80.
Proof. unfold conf; destruct (keyword_in_title t k); auto. Qed.

(* ===================================================================== *)
(** ** The heuristic: claims C1, C2 and C9 *)
(* ===================================================================== *)

(** C1.  For every title and keyword the score is 80 exactly when the
    lowercased, trimmed keyword occurs as a substring of the lowercased,
    trimmed title, and 50 exactly when it does not; no other score
    exists. *)
Theorem conf_is_substring_rule (title keyword : str) :
  (conf title keyword = 80
   <-> is_substring (lower (strip keyword)) (lower (strip title)))
  /\ (conf title keyword = 50
      <-> ~ is_substring (lower (strip keyword)) (lower (strip title)))
  /\ (conf title keyword = 50 \/ conf title keyword = 80).
Proof.
  pose proof (str_in_iff (lower (strip keyword)) (lower (strip title))) as H.
  unfold conf, keyword_in_title.
  destruct (str_in (lower (strip keyword)) (lower (strip title))).
  - split; [| split]; [| | now right].
    + split; [intros _; now apply H | reflexivity].
    + split; [discriminate |].
      intros Hn; exfalso; apply Hn, H; reflexivity.
  - split; [| split]; [| | now left].
    + split; [discriminate |].
      intros Hs; apply H in Hs; discriminate.
    + split; [| reflexivity].
      intros _ Hs; apply H in Hs; discriminate.
Qed.

(** C2.  The label is the "Optimizable" literal exactly when the score is
    strictly above 70 and the "Not Optimizable" literal otherwise; the
    score of a title/keyword pair is never 70, a score of 50 is labelled
    "Not Optimizable" and a score of 80 "Optimizable". *)
Theorem label_threshold (title keyword : str) (c : Z) :
  (label c = label_optimizable <-> 70 < c)
  /\ (label c = label_not_optimizable <-> c <= 70)
  /\ (class_name (label c) = "Optimizable"%string <-> 70 < c)
  /\ (class_name (label c) = "Not Optimizable"%string <-> c <= 70)
  /\ conf title keyword <> 70
  /\ class_name (label 50) = "Not Optimizable"%string
  /\ class_name (label 80) = "Optimizable"%string
  /\ (fst (seo_prediction title keyword) = label_optimizable
      <-> conf title keyword = 80)
  /\ (fst (seo_prediction title keyword) = label_not_optimizable
      <-> conf title keyword = 50).
Proof.
  assert (Hl : forall z, (70 < z -> label z = label_optimizable)
                         /\ (z <= 70 -> label z = label_not_optimizable)).
  { intros z; unfold label; destruct (Z.ltb_spec 70 z); split; intros;
      try reflexivity; lia. }
  assert (Hc : forall z, (label z = label_optimizable -> 70 < z)
                         /\ (label z = label_not_optimizable -> z <= 70)).
  { intros z; unfold label; destruct (Z.ltb_spec 70 z); split; intros E;
      try assumption; try discriminate E. }
  assert (Hn : forall z, (class_name (label z) = "Optimizable"%string
                          -> 70 < z)
                         /\ (class_name (label z) = "Not Optimizable"%string
                             -> z <= 70)).
  { intros z; unfold label; destruct (Z.ltb_spec 70 z); split; intros E;
      try assumption; try discriminate E. }
  assert (Hm : forall z, (70 < z
                          -> class_name (label z) = "Optimizable"%string)
                         /\ (z <= 70 ->
                             class_name (label z)
                             = "Not Optimizable"%string)).
  { intros z; unfold label; destruct (Z.ltb_spec 70 z); split; intros;
      try reflexivity; lia. }
  pose proof (conf_values title keyword) as Hv.
  repeat split; try (apply Hl || apply Hc || apply Hn || apply Hm);
    try reflexivity; unfold seo_prediction; simpl.
  - lia.
  - intros E; apply Hc in E; lia.
  - intros E; apply Hl; lia.
  - intros E; apply Hc in E; lia.
  - intros E; apply Hl; lia.
Qed.







(** The two scores of the counterexample. *)
Example conf_of_sharp_s :
  upper strasse = Some (py "STRASSE")
  /\ conf strasse strasse = 80
  /\ conf strasse (py "STRASSE") = 50.
Proof. repeat split. Qed.

(* ===================================================================== *)
(** ** Facts about the fetch helpers *)
(* ===================================================================== *)

Ltac start_of_window H today days :=
  let Hd := fresh in
  let Hlo := fresh in
  let Hhi := fresh in
  destruct H as [Hd [Hlo Hhi]]; unfold timedelta, date_sub; simpl;
  destruct (Z.leb_spec (Z.abs days) 999999999); [simpl | lia];
  destruct (Z.leb_spec date_min (today - days)); [simpl | lia];
  destruct (Z.leb_spec (today - days) date_max); [simpl | lia].

Lemma fetch_time_series_request (f : TimeSeriesFetch) (svc : Service date)
    (today : date) (days : Z) :
  window_ok today days ->
  fetch_time_series f (Ok svc) today days
  = (resp <- svc (time_series_body f today days) ;; time_series_frame resp).
Proof.
  intros H; destruct f; simpl;
    unfold fetch_site_data, fetch_page_data, fetch_keyword_data; simpl;
    start_of_window H today days; reflexivity.
Qed.

Lemma fetch_queries_request (svc : Service str) (today : date)
    (days limit : Z) :
  window_ok today days ->
  fetch_queries_df (Ok svc) today days limit
  = (resp <- svc (queries_body today days limit) ;;
     comprehension query_row (get (rows resp) [])).
Proof.
  intros H; unfold fetch_queries_df; simpl; start_of_window H today days; reflexivity.
Qed.

Lemma insert_by_ds_perm (p : Point) (l : list Point) :
  Permutation (insert_by_ds p l) (p :: l).
Proof.
  induction l as [| q l IH]; simpl; [reflexivity |].
  destruct (ds p <=? ds q); [reflexivity |].
  rewrite IH; apply perm_swap.
Qed.

Lemma sort_values_ds_perm (l : list Point) : Permutation (sort_values_ds l) l.
Proof.
  induction l as [| p l IH]; simpl; [reflexivity |].
  rewrite insert_by_ds_perm; now constructor.
Qed.

Lemma insert_by_ds_sorted (p : Point) (l : list Point) :
  non_decreasing (dates_of l) -> non_decreasing (dates_of (insert_by_ds p l)).
Proof.
  unfold non_decreasing, dates_of.
  induction l as [| q l IH]; simpl; intros Hs.
  - repeat constructor.
  - apply StronglySorted_inv in Hs; destruct Hs as [Hs Hq].
    destruct (Z.leb_spec (ds p) (ds q)) as [Hle | Hlt]; simpl.
    + constructor; [now constructor |].
      constructor; [exact Hle |].
      eapply Forall_impl; [| exact Hq]; simpl; intros; lia.
    + constructor; [now apply IH |].
      assert (Hall : Forall (Z.le (ds q)) (map ds (p :: l))).
      { simpl; constructor; [lia | exact Hq]. }
      eapply Permutation_Forall; [| exact Hall].
      apply Permutation_map; symmetry; apply insert_by_ds_perm.
Qed.

Lemma sort_values_ds_sorted (l : list Point) :
  non_decreasing (dates_of (sort_values_ds l)).
Proof.
  induction l as [| p l IH]; simpl; [constructor |].
  now apply insert_by_ds_sorted.
Qed.

Lemma non_decreasing_nodup (l : list date) :
  non_decreasing l -> NoDup l -> strictly_increasing l.
Proof.
  unfold non_decreasing, strictly_increasing.
  induction 1 as [| a l Hs IH Ha]; intros Hn; [constructor |].
  inversion Hn as [| ? ? Hnotin Hn']; subst.
  constructor; [now apply IH |].
  rewrite Forall_forall in *; intros b Hb.
  specialize (Ha b Hb).
  assert (a <> b) by (intros ->; contradiction).
  lia.
Qed.

Lemma strictly_increasing_nodup (l : list date) :
  strictly_increasing l -> NoDup l.
Proof.
  induction 1 as [| a l Hs IH Ha]; constructor; [| exact IH].
  intros Hin; rewrite Forall_forall in Ha; specialize (Ha a Hin); lia.
Qed.

Lemma first_key_ok {K : Type} (r : Row K) (k : K) :
  first_key r = Ok k <-> exists rest, keys r = Some (k :: rest).
Proof.
  unfold first_key; split.
  - destruct (keys r) as [[| k' rest] |]; intros H; try discriminate H.
    injection H as ->; now exists rest.
  - intros [rest ->]; reflexivity.
Qed.

Lemma comprehension_first_key (rs : list (Row date)) :
  Forall has_first_key rs ->
  comprehension first_key rs = Ok (map (fun r => ds (point_of_row r)) rs).
Proof.
  induction 1 as [| r rs [k [rest Hr]] _ IH]; simpl; [reflexivity |].
  rewrite IH; unfold first_key, point_of_row; rewrite Hr; reflexivity.
Qed.

Lemma comprehension_ok_inv {A B : Type} (f : A -> result B) (l : list A)
    (bs : list B) :
  comprehension f l = Ok bs -> Forall2 (fun a b => f a = Ok b) l bs.
Proof.
  revert bs; induction l as [| a l IH]; simpl; intros bs H.
  - injection H as <-; constructor.
  - destruct (f a) as [b | e] eqn:Hb; simpl in H; [| discriminate].
    destruct (comprehension f l) as [bs' | e]; simpl in H; [| discriminate].
    injection H as <-; constructor; [exact Hb | now apply IH].
Qed.

Lemma data_frame_rows (rs : list (Row date)) :
  data_frame (map (fun r => ds (point_of_row r)) rs)
    (map (fun r => get (clicks r) 0) rs)
  = map point_of_row rs.
Proof.
  unfold data_frame; induction rs as [| r rs IH]; [reflexivity |].
  cbn [map combine fst snd]; now rewrite IH.
Qed.

Lemma time_series_frame_ok (resp : Response date) :
  Forall has_first_key (get (rows resp) []) ->
  time_series_frame resp
  = Ok (sort_values_ds (map point_of_row (get (rows resp) []))).
Proof.
  intros H; unfold time_series_frame.
  rewrite (comprehension_first_key _ H); simpl.
  now rewrite data_frame_rows.
Qed.

Lemma time_series_frame_inv (resp : Response date) (df : list Point) :
  time_series_frame resp = Ok df ->
  Forall has_first_key (get (rows resp) [])
  /\ df = sort_values_ds (map point_of_row (get (rows resp) [])).
Proof.
  intros H.
  assert (Hk : Forall has_first_key (get (rows resp) [])).
  { unfold time_series_frame in H.
    destruct (comprehension first_key (get (rows resp) [])) as [dates | e]
      eqn:Hc; simpl in H; [| discriminate].
    apply comprehension_ok_inv in Hc; clear H.
    induction Hc as [| r k rs ks Hr _ IH]; constructor; [| exact IH].
    apply first_key_ok in Hr; destruct Hr as [rest Hr]; now exists k, rest. }
  split; [exact Hk |].
  rewrite (time_series_frame_ok _ Hk) in H; now injection H.
Qed.

Lemma fetch_time_series_inv (f : TimeSeriesFetch) (svc : Service date)
    (today : date) (days : Z) (resp : Response date) (df : list Point) :
  window_ok today days ->
  svc (time_series_body f today days) = Ok resp ->
  fetch_time_series f (Ok svc) today days = Ok df ->
  Forall has_first_key (get (rows resp) [])
  /\ df = sort_values_ds (map point_of_row (get (rows resp) [])).
Proof.
  intros Hw Hr Hf.
  rewrite (fetch_time_series_request f svc today days Hw), Hr in Hf.
  now apply time_series_frame_inv.
Qed.

Lemma query_row_ok (r : Row str) :
  has_first_key r ->
  exists q, query_row r = Ok q
            /\ first_key r = Ok (keyword q)
            /\ q_clicks q = get (clicks r) 0
            /\ q_impressions q = get (impressions r) 0.
Proof.
  intros [k [rest Hr]]; unfold query_row, first_key; rewrite Hr; simpl.
  eexists; repeat split.
Qed.

Lemma comprehension_total {A B : Type} (f : A -> result B) (P : A -> B -> Prop)
    (l : list A) :
  Forall (fun a => exists b, f a = Ok b /\ P a b) l ->
  exists bs, comprehension f l = Ok bs /\ Forall2 P l bs.
Proof.
  induction 1 as [| a l [b [Hb Hp]] _ [bs [IH Hbs]]]; simpl.
  - exists []; split; [reflexivity | constructor].
  - exists (b :: bs); rewrite Hb, IH; split; [reflexivity | now constructor].
Qed.

(* ===================================================================== *)
(** ** The fetch helpers: claims C6, C7, C8 and C10 *)
(* ===================================================================== *)

(** C6, as the code has it.  For a [days] whose start date exists, each of
    the four helpers sends exactly one request, with start date
    [today - days] and end date [today]; the helpers do not filter what
    comes back, so a returned series lies inside that inclusive range
    whenever every row of the response does. *)
Theorem fetch_request_and_range (f : TimeSeriesFetch) (svc : Service date)
    (svcq : Service str) (today : date) (days limit : Z)
    (resp : Response date) (df : list Point) :
  window_ok today days ->
  svc (time_series_body f today days) = Ok resp ->
  Forall (fun r => in_range (today - days) today (ds (point_of_row r)))
    (get (rows resp) []) ->
  fetch_time_series f (Ok svc) today days = Ok df ->
  fetch_time_series f (Ok svc) today days
  = (rsp <- svc (time_series_body f today days) ;; time_series_frame rsp)
  /\ fetch_queries_df (Ok svcq) today days limit
     = (rsp <- svcq (queries_body today days limit) ;;
        comprehension query_row (get (rows rsp) []))
  /\ startDate (time_series_body f today days) = today - days
  /\ endDate (time_series_body f today days) = today
  /\ startDate (queries_body today days limit) = today - days
  /\ endDate (queries_body today days limit) = today
  /\ Forall (in_range (today - days) today) (dates_of df).
Proof.
  intros Hw Hr Hin Hf.
  split; [now apply fetch_time_series_request |].
  split; [now apply fetch_queries_request |].
  split; [now destruct f |].
  split; [now destruct f |].
  split; [reflexivity |].
  split; [reflexivity |].
  destruct (fetch_time_series_inv f svc today days resp df Hw Hr Hf)
    as [_ ->].
  unfold dates_of.
  eapply Permutation_Forall.
  - apply Permutation_map; symmetry; apply sort_values_ds_perm.
  - rewrite map_map; now apply Forall_map.
Qed.

(** C6, as stated, fails: asked on 2026-11-03 for the last 30 days, a
    remote source that answers with a row dated 2020-01-01 gets that row
    returned, far outside the requested range. *)
Lemma fetched_date_outside_range :
  exists df,
    fetch_site_data (Ok stale_service) sample_today 30 = Ok df
    /\ df <> []
    /\ ~ Forall (in_range (sample_today - 30) sample_today) (dates_of df).
Proof.
  exists [mkPoint 737425 5]; split; [reflexivity |].
  split; [discriminate |].
  intros H; inversion H as [| d l [Hlo _] _]; subst.
  vm_compute in Hlo; apply Hlo; reflexivity.
Qed.

(** C7, as the code has it.  A returned time series holds exactly the
    response's rows (missing clicks read as 0) in non-decreasing date
    order; its dates are strictly increasing when the response's dates are
    pairwise distinct, and its values are non-negative when the response's
    click counts are; with both, the TimeSeriesPoint invariant holds. *)
Theorem fetched_series_sorted (f : TimeSeriesFetch) (svc : Service date)
    (today : date) (days : Z) (resp : Response date) (df : list Point) :
  window_ok today days ->
  svc (time_series_body f today days) = Ok resp ->
  fetch_time_series f (Ok svc) today days = Ok df ->
  Permutation df (map point_of_row (get (rows resp) []))
  /\ non_decreasing (dates_of df)
  /\ (NoDup (map (fun r => ds (point_of_row r)) (get (rows resp) [])) ->
      strictly_increasing (dates_of df))
  /\ (Forall (fun r => 0 <= get (clicks r) 0) (get (rows resp) []) ->
      Forall (fun p => 0 <= y p) df)
  /\ (NoDup (map (fun r => ds (point_of_row r)) (get (rows resp) [])) ->
      Forall (fun r => 0 <= get (clicks r) 0) (get (rows resp) []) ->
      time_series_invariant df).
Proof.
  intros Hw Hr Hf.
  destruct (fetch_time_series_inv f svc today days resp df Hw Hr Hf)
    as [_ ->].
  set (rs := get (rows resp) []).
  pose proof (sort_values_ds_perm (map point_of_row rs)) as Hp.
  assert (Hinc : NoDup (map (fun r => ds (point_of_row r)) rs) ->
                 strictly_increasing
                   (dates_of (sort_values_ds (map point_of_row rs)))).
  { intros Hn; apply non_decreasing_nodup; [apply sort_values_ds_sorted |].
    eapply Permutation_NoDup.
    - apply Permutation_map; symmetry; exact Hp.
    - now rewrite map_map. }
  assert (Hpos : Forall (fun r => 0 <= get (clicks r) 0) rs ->
                 Forall (fun p => 0 <= y p)
                   (sort_values_ds (map point_of_row rs))).
  { intros Hc; eapply Permutation_Forall; [symmetry; exact Hp |].
    now apply Forall_map. }
  split; [exact Hp |].
  split; [apply sort_values_ds_sorted |].
  split; [exact Hinc |].
  split; [exact Hpos |].
  intros Hn Hc; split; auto.
Qed.

(** C7, as stated, fails: a response that names one date twice comes back
    with that date twice, so the dates are not strictly increasing. *)
Lemma fetched_series_repeats_date :
  exists df,
    fetch_site_data (Ok repeating_service) sample_today 90 = Ok df
    /\ ~ time_series_invariant df.
Proof.
  exists [mkPoint 739900 3; mkPoint 739900 4]; split; [reflexivity |].
  intros [Hs _]; apply strictly_increasing_nodup in Hs.
  inversion Hs as [| d l Hnotin _]; subst; apply Hnotin; now left.
Qed.

(** A negative click count in the response is returned as it is. *)
Example fetched_series_negative_value :
  fetch_site_data (Ok negative_service) sample_today 90
  = Ok [mkPoint 739900 (-1)].
Proof. reflexivity. Qed.

(** C8.  When the remote source answers without rows, be it an empty
    ["rows"] list or no ["rows"] key at all, every fetch helper returns the
    empty table, which is not an exception. *)
Theorem fetch_no_rows_is_empty (f : TimeSeriesFetch) (svc : Service date)
    (svcq : Service str) (today : date) (days limit : Z)
    (resp : Response date) (respq : Response str) :
  window_ok today days ->
  svc (time_series_body f today days) = Ok resp ->
  rows resp = None \/ rows resp = Some [] ->
  svcq (queries_body today days limit) = Ok respq ->
  rows respq = None \/ rows respq = Some [] ->
  fetch_time_series f (Ok svc) today days = Ok []
  /\ fetch_queries_df (Ok svcq) today days limit = Ok []
  /\ (forall e, fetch_time_series f (Ok svc) today days <> Raise e)
  /\ (forall e, fetch_queries_df (Ok svcq) today days limit <> Raise e).
Proof.
  intros Hw Hr Hrows Hq Hrowsq.
  assert (H1 : fetch_time_series f (Ok svc) today days = Ok []).
  { rewrite (fetch_time_series_request f svc today days Hw), Hr; simpl.
    unfold time_series_frame; destruct Hrows as [-> | ->]; reflexivity. }
  assert (H2 : fetch_queries_df (Ok svcq) today days limit = Ok []).
  { rewrite (fetch_queries_request svcq today days limit Hw), Hq; simpl.
    destruct Hrowsq as [-> | ->]; reflexivity. }
  rewrite H1, H2; repeat split; intros e; discriminate.
Qed.

(** C10.  When every row of the response has a first key, the helpers
    return normally whatever metrics are missing: a time-series row shows
    [clicks] or else 0, a query row shows [clicks] or else 0 and
    [impressions] or else 0.  So a query row can come back with more
    clicks than impressions: a reported row with 5 clicks and no
    impressions does. *)
Theorem missing_metric_reads_zero (f : TimeSeriesFetch) (svc : Service date)
    (svcq : Service str) (today : date) (days limit : Z)
    (resp : Response date) (respq : Response str) :
  window_ok today days ->
  svc (time_series_body f today days) = Ok resp ->
  Forall has_first_key (get (rows resp) []) ->
  svcq (queries_body today days limit) = Ok respq ->
  Forall has_first_key (get (rows respq) []) ->
  (exists df,
      fetch_time_series f (Ok svc) today days = Ok df
      /\ Permutation df (map point_of_row (get (rows resp) []))
      /\ forall r, In r (get (rows resp) []) -> clicks r = None ->
                   y (point_of_row r) = 0 /\ In (point_of_row r) df)
  /\ (exists dfq,
         fetch_queries_df (Ok svcq) today days limit = Ok dfq
         /\ Forall2 (fun r q =>
                       first_key r = Ok (keyword q)
                       /\ q_clicks q = get (clicks r) 0
                       /\ q_impressions q = get (impressions r) 0)
              (get (rows respq) []) dfq)
  /\ (exists q,
         fetch_queries_df (Ok partial_service) sample_today 30 5 = Ok [q]
         /\ q_impressions q < q_clicks q).
Proof.
  intros Hw Hr Hk Hq Hkq; split; [| split].
  - exists (sort_values_ds (map point_of_row (get (rows resp) []))).
    pose proof (sort_values_ds_perm (map point_of_row (get (rows resp) [])))
      as Hp.
    split; [| split; [exact Hp |]].
    + rewrite (fetch_time_series_request f svc today days Hw), Hr; simpl.
      now apply time_series_frame_ok.
    + intros r Hin Hc; split.
      * unfold point_of_row; simpl; now rewrite Hc.
      * eapply Permutation_in; [symmetry; exact Hp |].
        now apply in_map.
  - rewrite (fetch_queries_request svcq today days limit Hw), Hq; simpl.
    apply comprehension_total.
    eapply Forall_impl; [| exact Hkq].
    intros r Hfk; destruct (query_row_ok r Hfk) as [q [H1 H2]].
    now exists q.
  - exists (mkQueryRow (py "seo") 5 0); split; [reflexivity |].
    simpl; lia.
Qed.

(* ===================================================================== *)
(** ** The ranking panel: claim C4 *)
(* ===================================================================== *)

Lemma true_divide_by_zero (a : Z) :
  true_divide a 0
  = if a =? 0 then NaN else if 0 <? a then PInf else NInf.
Proof. reflexivity. Qed.

(** C4, as the code has it.  On a row without impressions the division
    raises nothing; the row's rate is the undefined value NaN when the row
    has no clicks either, and plus (minus) infinity when its clicks are
    positive (negative); the panel goes on to show its two metrics. *)
Theorem ctr_without_impressions (df_r : list QueryRow) (r : QueryRow) :
  In r df_r -> q_impressions r = 0 ->
  (q_clicks r = 0 -> row_ctr r = NaN)
  /\ (0 < q_clicks r -> row_ctr r = PInf)
  /\ (q_clicks r < 0 -> row_ctr r = NInf)
  /\ (zero_or_undefined (row_ctr r) <-> q_clicks r = 0)
  /\ In (row_ctr r) (ctr_column df_r)
  /\ exists total avg, keyword_ranking df_r = RankingMetrics total avg.
Proof.
  intros Hin Hz; unfold row_ctr; rewrite Hz, true_divide_by_zero.
  assert (Hcol : In (true_divide (q_clicks r) (q_impressions r))
                   (ctr_column df_r))
    by (unfold ctr_column; now apply (in_map row_ctr)).
  rewrite Hz, true_divide_by_zero in Hcol.
  destruct (Z.eqb_spec (q_clicks r) 0) as [He | Hne];
    [| destruct (Z.ltb_spec 0 (q_clicks r)) as [Hpos | Hneg]].
  - repeat split; try reflexivity; try lia; try exact Hcol; auto.
    destruct df_r; [contradiction | now eexists; eexists].
  - repeat split; try reflexivity; try lia; try exact Hcol;
      try contradiction.
    destruct df_r; [contradiction | now eexists; eexists].
  - repeat split; try reflexivity; try lia; try exact Hcol;
      try contradiction.
    destruct df_r; [contradiction | now eexists; eexists].
Qed.

(** C4, as stated, fails: the spec's own row, 10 clicks on 0 impressions,
    gets the rate plus infinity, which is neither 0 nor undefined. *)
Lemma ctr_without_impressions_infinite :
  ~ (forall (df_r : list QueryRow) (r : QueryRow),
        In r df_r -> q_impressions r = 0 -> zero_or_undefined (row_ctr r)).
Proof.
  intros H.
  exact (H [mkQueryRow (py "seo") 10 0] (mkQueryRow (py "seo") 10 0)
           (or_introl eq_refl) eq_refl).
Qed.

(** The panel then shows an infinite average. *)
Example ranking_of_clicks_without_impressions :
  keyword_ranking [mkQueryRow (py "seo") 10 0] = RankingMetrics 10 PInf.
Proof. reflexivity. Qed.

(** A row with neither clicks nor impressions is skipped by the average. *)
Example ranking_skips_undefined_rate :
  keyword_ranking [mkQueryRow (py "seo") 0 0; mkQueryRow (py "title") 1 2]
  = RankingMetrics 1 (Fin (5000 # 100)).
Proof. reflexivity. Qed.

(* ===================================================================== *)
(** ** Forecasting: claims C3 and C5 *)
(* ===================================================================== *)

Lemma filter_none {A : Type} (p : A -> bool) (l : list A) :
  Forall (fun a => p a = false) l -> filter p l = [].
Proof.
  induction 1 as [| a l Ha _ IH]; simpl; [reflexivity |].
  now rewrite Ha.
Qed.

Lemma filter_all {A : Type} (p : A -> bool) (l : list A) :
  Forall (fun a => p a = true) l -> filter p l = l.
Proof.
  induction 1 as [| a l Ha _ IH]; simpl; [reflexivity |].
  now rewrite Ha, IH.
Qed.

Lemma filter_map_swap {A B : Type} (f : A -> B) (p : B -> bool)
    (l : list A) :
  filter p (map f l) = map f (filter (fun a => p (f a)) l).
Proof.
  induction l as [| a l IH]; simpl; [reflexivity |].
  destruct (p (f a)); simpl; now rewrite IH.
Qed.

Lemma last_in {A : Type} (l : list A) (a d : A) : In (last (a :: l) d) (a :: l).
Proof.
  revert a; induction l as [| b l IH]; intros a; [now left |].
  right; apply IH.
Qed.

Lemma strictly_increasing_last (l : list date) (d0 : date) :
  strictly_increasing l -> Forall (fun d => d <= last l d0) l.
Proof.
  induction 1 as [| a l Hs IH Ha]; [constructor |].
  destruct l as [| b l]; [repeat constructor; simpl; lia |].
  assert (Hb : a < last (b :: l) d0).
  { rewrite Forall_forall in Ha; apply Ha, last_in. }
  change (last (a :: b :: l) d0) with (last (b :: l) d0).
  constructor; [lia | exact IH].
Qed.

Lemma days_after_spec (d : date) (n : Z) :
  List.length (days_after d n) = Z.to_nat n
  /\ strictly_increasing (days_after d n)
  /\ Forall (fun x => d < x) (days_after d n)
  /\ forall i, (i < Z.to_nat n)%nat ->
               nth i (days_after d n) 0 = d + 1 + Z.of_nat i.
Proof.
  unfold days_after; generalize (Z.to_nat n) as k; intros k.
  split; [now rewrite length_map, length_seq |].
  split; [| split].
  - unfold strictly_increasing; generalize 1%nat as s.
    induction k as [| k IH]; intros s; simpl; constructor; [apply IH |].
    rewrite Forall_forall; intros x Hx.
    apply in_map_iff in Hx; destruct Hx as [i [<- Hi]].
    apply in_seq in Hi; lia.
  - rewrite Forall_forall; intros x Hx.
    apply in_map_iff in Hx; destruct Hx as [i [<- Hi]].
    apply in_seq in Hi; lia.
  - intros i Hi.
    rewrite (nth_indep _ 0 (d + Z.of_nat 0))
      by now rewrite length_map, length_seq.
    rewrite (map_nth (fun j => d + Z.of_nat j)), seq_nth by exact Hi.
    lia.
Qed.

Lemma valid_history_fits (df : list Point) :
  valid_history df -> (List.length (distinct_dates df) <? 2)%nat = false.
Proof.
  intros [[Hs _] Hlen]; unfold distinct_dates.
  rewrite nodup_fixed_point by now apply strictly_increasing_nodup.
  unfold dates_of; rewrite length_map.
  apply Nat.ltb_ge; exact Hlen.
Qed.

(** C3.  A history with fewer than two distinct dates, in particular an
    empty or a one-point history, makes [forecast] fail with
    InsufficientDataError: the source has no guard of its own, the failure
    is the library's and passes through unchanged. *)
Theorem forecast_insufficient_data
    (regression : Prophet -> date -> Q * (Q * Q)) (df : list Point)
    (days_ahead : Z) :
  (List.length (distinct_dates df) < 2)%nat ->
  forecast regression df days_ahead = Raise InsufficientDataError
  /\ forecast regression [] days_ahead = Raise InsufficientDataError
  /\ forall p, forecast regression [p] days_ahead
               = Raise InsufficientDataError.
Proof.
  intros H; repeat split; try reflexivity.
  unfold forecast, fit; simpl.
  apply Nat.ltb_lt in H; now rewrite H.
Qed.

(** C5.  For a valid history and a positive horizon [n], [forecast]
    returns; the model it returns has daily seasonality switched on and
    was fitted on the given history; and the rows it projects beyond the
    history are exactly [n], dated [last+1 .. last+n] in this order. *)
Theorem forecast_horizon
    (regression : Prophet -> date -> Q * (Q * Q)) (df : list Point)
    (n : Z) :
  valid_history df -> 0 < n ->
  exists r,
    forecast regression df n = Ok r
    /\ daily_seasonality (fst r) = true
    /\ result_history r = df
    /\ map p_ds (projected r) = days_after (last_date df) n
    /\ List.length (projected r) = Z.to_nat n
    /\ strictly_increasing (map p_ds (projected r))
    /\ forall i, (i < Z.to_nat n)%nat ->
                 nth i (map p_ds (projected r)) 0
                 = last_date df + 1 + Z.of_nat i.
Proof.
  intros Hv Hn.
  pose proof (valid_history_fits df Hv) as Hfit.
  destruct (days_after_spec (last_date df) n) as [Hlen [Hinc [Hgt Hnth]]].
  eexists; split.
  { unfold forecast, fit; rewrite Hfit; simpl; reflexivity. }
  assert (Hp : map p_ds
                 (projected
                    (mkProphet true (Some df),
                     map (fun d =>
                            let e := regression (mkProphet true (Some df)) d
                            in mkProjection d (fst e) (fst (snd e))
                                 (snd (snd e)))
                       (dates_of df ++ days_after (last_date df) n)))
               = days_after (last_date df) n).
  { unfold projected, result_history; simpl.
    rewrite filter_map_swap, map_map; simpl.
    rewrite map_id, filter_app.
    rewrite filter_none, filter_all; [reflexivity | |].
    - eapply Forall_impl; [| exact Hgt]; simpl; intros x Hx.
      now apply Z.ltb_lt.
    - destruct Hv as [[Hs _] _].
      eapply Forall_impl; [| exact (strictly_increasing_last _ date_min Hs)].
      simpl; intros x Hx; apply Z.ltb_ge; exact Hx. }
  unfold days_after in *.
  split; [reflexivity |].
  split; [reflexivity |].
  split; [exact Hp |].
  split; [| split].
  - rewrite <- (length_map p_ds), Hp; exact Hlen.
  - rewrite Hp; exact Hinc.
  - rewrite Hp; exact Hnth.
Qed.

(* ===================================================================== *)
(** ** The statements above at concrete inputs *)
(* ===================================================================== *)


Ltac blank_by_chars := repeat (apply Forall_cons; [reflexivity |]); apply Forall_nil.

Ltac window_by_lia :=
  unfold window_ok, sample_today, MAX_HISTORY, date_min, date_max; simpl; lia.


Lemma fetch_request_and_range_witness :
  window_ok sample_today 2
  /\ fetch_site_data (Ok daily_service) sample_today 2 = Ok sample_series
  /\ Forall (in_range (sample_today - 2) sample_today)
       (dates_of sample_series).
Proof.
  assert (Hw : window_ok sample_today 2) by window_by_lia.
  assert (Hin : Forall
                  (fun r => in_range (sample_today - 2) sample_today
                              (ds (point_of_row r)))
                  (get (rows sample_response) [])).
  { unfold in_range, sample_today; simpl.
    repeat (apply Forall_cons; [simpl; lia |]); apply Forall_nil. }
  split; [exact Hw |]; split; [reflexivity |].
  exact (proj2 (proj2 (proj2 (proj2 (proj2 (proj2
           (fetch_request_and_range SiteData daily_service
              (empty_service str) sample_today 2 10 sample_response
              sample_series Hw eq_refl Hin eq_refl))))))).
Defined.

Lemma fetched_series_sorted_witness :
  window_ok sample_today 2
  /\ fetch_site_data (Ok daily_service) sample_today 2 = Ok sample_series
  /\ non_decreasing (dates_of sample_series).
Proof.
  assert (Hw : window_ok sample_today 2) by window_by_lia.
  split; [exact Hw |]; split; [reflexivity |].
  exact (proj1 (proj2
           (fetched_series_sorted SiteData daily_service sample_today 2
              sample_response sample_series Hw eq_refl eq_refl))).
Defined.

Lemma fetch_no_rows_is_empty_witness :
  window_ok sample_today MAX_HISTORY
  /\ fetch_keyword_data (Ok (empty_service date)) sample_today (py "seo")
       MAX_HISTORY
     = Ok []
  /\ fetch_queries_df (Ok (empty_service str)) sample_today MAX_HISTORY 10
     = Ok [].
Proof.
  assert (Hw : window_ok sample_today MAX_HISTORY) by window_by_lia.
  split; [exact Hw |].
  destruct (fetch_no_rows_is_empty (KeywordData (py "seo"))
              (empty_service date) (empty_service str) sample_today
              MAX_HISTORY 10
              (mkResponse None) (mkResponse None) Hw eq_refl
              (or_introl eq_refl) eq_refl (or_introl eq_refl))
    as [H1 [H2 _]].
  split; [exact H1 | exact H2].
Defined.

Lemma missing_metric_reads_zero_witness :
  window_ok sample_today 30
  /\ Forall has_first_key (get (rows bare_response) [])
  /\ exists df,
       fetch_site_data (Ok bare_service) sample_today 30 = Ok df
       /\ Permutation df [mkPoint 739900 0].
Proof.
  assert (Hw : window_ok sample_today 30) by window_by_lia.
  assert (Hk : Forall has_first_key (get (rows bare_response) [])).
  { simpl; apply Forall_cons; [| apply Forall_nil].
    exists 739900, []; reflexivity. }
  assert (Hkq : Forall has_first_key (get (rows partial_response) [])).
  { simpl; apply Forall_cons; [| apply Forall_nil].
    exists (py "seo"), []; reflexivity. }
  split; [exact Hw |]; split; [exact Hk |].
  destruct (missing_metric_reads_zero SiteData bare_service partial_service
              sample_today 30 5 bare_response partial_response
              Hw eq_refl Hk eq_refl Hkq)
    as [[df [H1 [H2 _]]] _].
  exists df; split; [exact H1 | exact H2].
Defined.

Lemma ctr_without_impressions_witness :
  In (mkQueryRow (py "seo") 10 0) [mkQueryRow (py "seo") 10 0]
  /\ q_impressions (mkQueryRow (py "seo") 10 0) = 0
  /\ row_ctr (mkQueryRow (py "seo") 10 0) = PInf.
Proof.
  split; [now left |]; split; [reflexivity |].
  destruct (ctr_without_impressions [mkQueryRow (py "seo") 10 0]
              (mkQueryRow (py "seo") 10 0) (or_introl eq_refl) eq_refl)
    as [_ [H _]].
  apply H; reflexivity.
Defined.

Lemma forecast_insufficient_data_witness :
  (List.length (distinct_dates one_day_twice) < 2)%nat
  /\ forecast flat_regression one_day_twice 15 = Raise InsufficientDataError.
Proof.
  assert (H : (List.length (distinct_dates one_day_twice) < 2)%nat)
    by (vm_compute; apply le_n).
  split; [exact H |].
  exact (proj1 (forecast_insufficient_data flat_regression one_day_twice 15
                  H)).
Defined.

Lemma forecast_horizon_witness :
  valid_history sample_series
  /\ exists r,
       forecast flat_regression sample_series 15 = Ok r
       /\ map p_ds (projected r) = days_after 739923 15.
Proof.
  assert (Hv : valid_history sample_series).
  { unfold valid_history, time_series_invariant, strictly_increasing,
      sample_series; simpl; split; [split |].
    - repeat (apply SSorted_cons;
              [| repeat (apply Forall_cons; [lia |]); apply Forall_nil]).
      apply SSorted_nil.
    - repeat (apply Forall_cons; [simpl; lia |]); apply Forall_nil.
    - apply le_S, le_n. }
  split; [exact Hv |].
  destruct (forecast_horizon flat_regression sample_series 15 Hv eq_refl)
    as [r [H1 [_ [_ [H2 _]]]]].
  exists r; split; [exact H1 | exact H2].
Defined.

(* ===================================================================== *)
(** ** More about the heuristic *)
(* ===================================================================== *)

Lemma conf_80_is_substring (t k : str) :
  conf t k = 80 <-> is_substring (lower (strip k)) (lower (strip t)).
Proof.
  rewrite <- str_in_iff; unfold conf, keyword_in_title.
  destruct (str_in (lower (strip k)) (lower (strip t))); split;
    try reflexivity; discriminate.
Qed.

Lemma conf_not_80 (t k : str) : conf t k <> 80 -> conf t k = 50.
Proof. destruct (conf_values t k) as [H | H]; [auto | contradiction]. Qed.

Lemma is_substring_refl (a : str) : is_substring a a.
Proof. exists [], []; now rewrite app_nil_r. Qed.

Lemma is_substring_trans (a b c : str) :
  is_substring a b -> is_substring b c -> is_substring a c.
Proof.
  intros [p [q ->]] [p' [q' ->]]; exists (p' ++ p), (q ++ q').
  now rewrite <- !app_assoc.
Qed.

Lemma is_substring_lower (a b : str) :
  is_substring a b -> is_substring (lower a) (lower b).
Proof.
  intros [p [q ->]]; exists (lower p), (lower q); unfold lower.
  now rewrite !map_app.
Qed.

Lemma is_substring_length (a b : str) :
  is_substring a b -> (List.length a <= List.length b)%nat.
Proof. intros [p [q ->]]; rewrite !length_app; lia. Qed.

Lemma lstrip_nil_blank (s : str) : lstrip s = [] -> blank s.
Proof.
  induction s as [| c s IH]; simpl; [constructor |].
  destruct (isspace c) eqn:Hc; [| discriminate].
  intros H; apply Forall_cons; [exact Hc | now apply IH].
Qed.

(** What [lstrip] leaves is empty or starts with a visible character. *)
Lemma lstrip_head (s : str) :
  lstrip s = []
  \/ exists c s', lstrip s = c :: s' /\ isspace c = false.
Proof.
  induction s as [| c s IH]; simpl; [now left |].
  destruct (isspace c) eqn:Hc; [exact IH |].
  right; now exists c, s.
Qed.

Lemma lstrip_decompose (s : str) : exists w, blank w /\ s = w ++ lstrip s.
Proof.
  induction s as [| c s [w [Hw IH]]]; simpl.
  - exists []; split; [constructor | reflexivity].
  - destruct (isspace c) eqn:Hc.
    + exists (c :: w); split; [now constructor | simpl; now f_equal].
    + exists []; split; [constructor | reflexivity].
Qed.

Lemma blank_visible_head (c : ascii) (s : str) :
  isspace c = false -> ~ blank (c :: s).
Proof. intros Hc Hb; inversion Hb; congruence. Qed.

Lemma strip_blank (s : str) : blank s -> strip s = [].
Proof.
  intros H; unfold strip, rstrip; now rewrite (lstrip_blank s H).
Qed.

Lemma strip_nil_blank (s : str) : strip s = [] -> blank s.
Proof.
  unfold strip, rstrip; intros H.
  assert (Hr : lstrip (rev (lstrip s)) = []).
  { rewrite <- (rev_involutive (lstrip (rev (lstrip s)))), H; reflexivity. }
  apply lstrip_nil_blank, blank_rev in Hr; rewrite rev_involutive in Hr.
  destruct (lstrip_head s) as [Hs | [c [s' [Hs Hc]]]].
  - now apply lstrip_nil_blank.
  - rewrite Hs in Hr; now apply blank_visible_head in Hr.
Qed.

(** A string that starts with a visible character keeps everything when
    text is put in front of it and the whole is stripped on the left,
    apart from what is in front. *)
Lemma lstrip_keeps_visible (p s : str) (c : ascii) :
  isspace c = false -> exists p', lstrip (p ++ c :: s) = p' ++ c :: s.
Proof.
  intros Hc; destruct (lstrip_app_cases p (c :: s)) as [[Hb Hp] | Hp].
  - exists []; rewrite lstrip_blank_app by exact Hb; simpl; now rewrite Hc.
  - exists (lstrip p); exact Hp.
Qed.

Lemma strip_decompose (s : str) :
  exists w1 w2, blank w1 /\ blank w2 /\ s = w1 ++ strip s ++ w2.
Proof.
  destruct (lstrip_decompose s) as [w1 [H1 Hs]].
  destruct (lstrip_decompose (rev (lstrip s))) as [w2 [H2 Hr]].
  exists w1, (rev w2); split; [exact H1 |]; split; [now apply blank_rev |].
  unfold strip, rstrip; rewrite <- rev_app_distr, <- Hr, rev_involutive.
  exact Hs.
Qed.

(** A stripped string is empty, or starts and ends with a visible
    character. *)
Lemma strip_ends (s : str) :
  strip s = []
  \/ exists c d m, isspace c = false /\ isspace d = false
                   /\ (strip s = [c] /\ c = d /\ m = []
                       \/ strip s = c :: m ++ [d]).
Proof.
  unfold strip, rstrip.
  destruct (lstrip_head s) as [Hs | [c [s' [Hs Hc]]]].
  - left; now rewrite Hs.
  - right; rewrite Hs; simpl.
    destruct (lstrip_app_cases (rev s') [c]) as [[Hb Hp] | Hp].
    + exists c, c, []; repeat split; try assumption.
      left; rewrite lstrip_blank_app by exact Hb; simpl; rewrite Hc.
      repeat split.
    + rewrite Hp, rev_app_distr; simpl.
      destruct (lstrip_head (rev s')) as [Hn | [d [r [Hd Hdd]]]].
      * exists c, c, []; repeat split; try assumption.
        left; rewrite Hn; repeat split.
      * exists c, d, (rev r); repeat split; try assumption.
        right; rewrite Hd; simpl; reflexivity.
Qed.

Lemma strip_keeps_core (p q core : str) :
  core = strip core -> is_substring core (strip (p ++ core ++ q)).
Proof.
  intros Hcore.
  destruct (strip_ends core) as [Hn | [c [d [m [Hc [Hd Hshape]]]]]].
  { rewrite Hcore, Hn; now exists [], (strip (p ++ [] ++ q)). }
  rewrite <- Hcore in Hshape.
  assert (Hl : exists t, core = c :: t) by
    (destruct Hshape as [[-> _] | ->]; eexists; reflexivity).
  assert (Hrv : exists t, rev core = d :: t).
  { destruct Hshape as [[-> [-> _]] | ->]; simpl.
    - now exists [].
    - rewrite rev_app_distr; simpl; eexists; reflexivity. }
  destruct Hl as [t Ht]; destruct Hrv as [t' Ht'].
  unfold strip, rstrip.
  destruct (lstrip_keeps_visible p (t ++ q) c Hc) as [p' Hp'].
  rewrite Ht; simpl; rewrite Hp'.
  change (p' ++ c :: t ++ q) with (p' ++ (c :: t) ++ q); rewrite <- Ht.
  rewrite !rev_app_distr, Ht', <- app_assoc; simpl.
  destruct (lstrip_keeps_visible (rev q) (t' ++ rev p') d Hd) as [q' Hq'].
  rewrite Hq', rev_app_distr; simpl; rewrite rev_app_distr.
  assert (Hrc : rev t' ++ [d] = core).
  { rewrite <- (rev_involutive core), Ht'; reflexivity. }
  exists (rev (rev p')), (rev q'); rewrite <- Hrc.
  now rewrite <- !app_assoc.
Qed.

Lemma strip_idempotent (s : str) : strip (strip s) = strip s.
Proof.
  destruct (strip_ends s) as [Hn | [c [d [m [Hc [Hd Hshape]]]]]].
  - rewrite Hn; reflexivity.
  - destruct Hshape as [[-> _] | ->].
    + unfold strip, rstrip; simpl; rewrite Hc; simpl; now rewrite Hc.
    + assert (Hl : lstrip (c :: m ++ [d]) = c :: m ++ [d])
        by (simpl; now rewrite Hc).
      assert (Hr : rev (c :: m ++ [d]) = d :: rev m ++ [c])
        by (simpl; rewrite rev_app_distr; reflexivity).
      unfold strip, rstrip; rewrite Hl, Hr; simpl; rewrite Hd.
      now rewrite <- Hr, rev_involutive.
Qed.

(** X1.  Matching is a preorder: a title used as its own keyword scores
    80, and when [k] scores 80 against [t] and [j] scores 80 against [k],
    then [j] scores 80 against [t]. *)
Theorem conf_preorder (t k j : str) :
  conf t k = 80 -> conf k j = 80 -> conf t j = 80 /\ conf t t = 80.
Proof.
  rewrite !conf_80_is_substring; intros H1 H2; split.
  - eapply is_substring_trans; eassumption.
  - apply is_substring_refl.
Qed.

(** X2.  A keyword of whitespace only scores 80 against every title, and
    a title of whitespace only (or an empty one) gives 80 to such keywords
    and to no other. *)
Theorem conf_blank (w t k : str) :
  blank w -> conf t w = 80 /\ (conf w k = 80 <-> blank k).
Proof.
  intros Hw; rewrite !conf_80_is_substring, (strip_blank w Hw); simpl.
  split; [now exists [], (lower (strip t)) |].
  split.
  - intros [p [q H]]; apply strip_nil_blank.
    destruct p; [| discriminate].
    destruct (strip k); [reflexivity | discriminate].
  - intros Hk; rewrite (strip_blank k Hk); apply is_substring_refl.
Qed.

(** X3.  On strings of code points below 256, where lower-casing keeps
    every length, a keyword that is longer than the title, both counted
    without the surrounding whitespace, scores 50. *)
Theorem conf_longer_keyword (t k : str) :
  (List.length (strip t) < List.length (strip k))%nat -> conf t k = 50.
Proof.
  intros Hlen; apply conf_not_80; rewrite conf_80_is_substring; intros Hs.
  apply is_substring_length in Hs; unfold lower in Hs.
  rewrite !length_map in Hs; lia.
Qed.

(** X4.  On strings of code points below 256, where lower-casing works
    character by character, text put in front of or behind a title never
    loses a match: if the keyword scores 80 against [t], it scores 80
    against [a ++ t ++ b]. *)
Theorem conf_title_extension (a b t k : str) :
  conf t k = 80 -> conf (a ++ t ++ b) k = 80.
Proof.
  rewrite !conf_80_is_substring; intros H.
  eapply is_substring_trans; [exact H |].
  apply is_substring_lower.
  destruct (strip_decompose t) as [w1 [w2 [_ [_ Ht]]]].
  remember (strip t) as core eqn:Hcore.
  assert (Hfix : core = strip core)
    by (rewrite Hcore; symmetry; apply strip_idempotent).
  rewrite Ht.
  replace (a ++ (w1 ++ core ++ w2) ++ b)
    with ((a ++ w1) ++ core ++ (w2 ++ b))
    by now rewrite <- !app_assoc.
  now apply strip_keeps_core.
Qed.

(* ===================================================================== *)
(** ** More about the fetch helpers *)
(* ===================================================================== *)

Lemma bind_raise {A B : Type} (c : result A) (k : A -> result B) (e : exn) :
  bind c k = Raise e -> c = Raise e \/ exists a, c = Ok a /\ k a = Raise e.
Proof.
  destruct c as [a | e']; simpl; intros H.
  - right; now exists a.
  - left; now injection H as ->.
Qed.

Lemma comprehension_raise_iff {A B : Type} (f : A -> result B) (l : list A)
    (e : exn) :
  comprehension f l = Raise e
  <-> exists pre a post,
        l = pre ++ a :: post
        /\ Forall (fun x => exists b, f x = Ok b) pre
        /\ f a = Raise e.
Proof.
  split.
  - induction l as [| x l IH]; simpl; intros H; [discriminate |].
    apply bind_raise in H; destruct H as [Hx | [b [Hx H]]].
    + exists [], x, l; repeat split; trivial.
    + apply bind_raise in H; destruct H as [Hl | [bs [_ H]]];
        [| discriminate].
      destruct (IH Hl) as [pre [a [post [-> [Hpre Ha]]]]].
      exists (x :: pre), a, post; repeat split; trivial.
      constructor; [now exists b | exact Hpre].
  - intros [pre [a [post [-> [Hpre Ha]]]]].
    induction Hpre as [| x pre [b Hb] _ IH]; simpl.
    + now rewrite Ha.
    + now rewrite Hb, IH.
Qed.

Lemma first_key_raise {K : Type} (r : Row K) (e : exn) :
  first_key r = Raise e
  <-> (keys r = None /\ e = KeyError "keys")
      \/ (keys r = Some [] /\ e = IndexError).
Proof.
  unfold first_key; destruct (keys r) as [[| k rest] |]; split.
  - intros H; injection H as <-; right; now split.
  - intros [[H _] | [_ ->]]; [discriminate | reflexivity].
  - discriminate.
  - intros [[H _] | [H _]]; discriminate.
  - intros H; injection H as <-; left; now split.
  - intros [[_ ->] | [H _]]; [reflexivity | discriminate].
Qed.

Lemma has_first_key_ok {K : Type} (r : Row K) :
  has_first_key r <-> exists k, first_key r = Ok k.
Proof.
  split.
  - intros [k [rest H]]; exists k; apply first_key_ok; now exists rest.
  - intros [k H]; apply first_key_ok in H; destruct H as [rest H].
    now exists k, rest.
Qed.

Lemma query_row_raise (r : Row str) (e : exn) :
  query_row r = Raise e <-> first_key r = Raise e.
Proof.
  unfold query_row; destruct (first_key r); simpl; split; congruence.
Qed.

Lemma query_row_has_key (r : Row str) :
  has_first_key r <-> exists q, query_row r = Ok q.
Proof.
  rewrite has_first_key_ok; unfold query_row.
  destruct (first_key r) as [k | e]; simpl; split; intros [x H];
    try discriminate; eexists; reflexivity.
Qed.

Lemma time_series_frame_raise (resp : Response date) (e : exn) :
  time_series_frame resp = Raise e
  <-> comprehension first_key (get (rows resp) []) = Raise e.
Proof.
  unfold time_series_frame.
  destruct (comprehension first_key (get (rows resp) [])); simpl; split;
    congruence.
Qed.

(** X5.  A time-series helper that got its response raises the exception
    of the first row without a first key: KeyError when the row has no
    ["keys"] entry, IndexError when its key list is empty; one such row
    loses the whole table.  For a response whose first keys are dates, as
    the rows are typed here (text that [pd.to_datetime] reads), the helper
    raises in no other case. *)
Theorem fetch_time_series_row_error (f : TimeSeriesFetch)
    (svc : Service date) (today : date) (days : Z) (resp : Response date)
    (e : exn) :
  window_ok today days ->
  svc (time_series_body f today days) = Ok resp ->
  (fetch_time_series f (Ok svc) today days = Raise e
   <-> exists pre r post,
         get (rows resp) [] = pre ++ r :: post
         /\ Forall has_first_key pre
         /\ (keys r = None /\ e = KeyError "keys"
             \/ keys r = Some [] /\ e = IndexError)).
Proof.
  intros Hw Hr.
  rewrite (fetch_time_series_request f svc today days Hw), Hr; simpl.
  rewrite time_series_frame_raise, comprehension_raise_iff.
  split; intros [pre [r [post [H [Hpre Hr']]]]]; exists pre, r, post;
    (split; [exact H |]); split.
  - eapply Forall_impl; [| exact Hpre]; intros x; apply has_first_key_ok.
  - now apply first_key_raise.
  - eapply Forall_impl; [| exact Hpre]; intros x; apply has_first_key_ok.
  - now apply first_key_raise.
Qed.

(** X6.  The same for the query table: [fetch_queries_df] raises exactly
    when some row has no first key, with the exception of the first such
    row; missing metrics never make it raise. *)
Theorem fetch_queries_row_error (svc : Service str) (today : date)
    (days limit : Z) (resp : Response str) (e : exn) :
  window_ok today days ->
  svc (queries_body today days limit) = Ok resp ->
  (fetch_queries_df (Ok svc) today days limit = Raise e
   <-> exists pre r post,
         get (rows resp) [] = pre ++ r :: post
         /\ Forall has_first_key pre
         /\ (keys r = None /\ e = KeyError "keys"
             \/ keys r = Some [] /\ e = IndexError)).
Proof.
  intros Hw Hr.
  rewrite (fetch_queries_request svc today days limit Hw), Hr; simpl.
  rewrite comprehension_raise_iff.
  split; intros [pre [r [post [H [Hpre Hr']]]]]; exists pre, r, post;
    (split; [exact H |]); split.
  - eapply Forall_impl; [| exact Hpre]; intros x; apply query_row_has_key.
  - now apply first_key_raise, query_row_raise.
  - eapply Forall_impl; [| exact Hpre]; intros x; apply query_row_has_key.
  - now apply query_row_raise, first_key_raise.
Qed.

(** X7.  When [today - days] is not a date, or [days] is beyond what a
    timedelta holds, every helper raises OverflowError, whatever the
    remote source would have answered. *)
Theorem fetch_days_out_of_window (f : TimeSeriesFetch) (svc : Service date)
    (svcq : Service str) (today : date) (days limit : Z) :
  ~ window_ok today days ->
  fetch_time_series f (Ok svc) today days = Raise OverflowError
  /\ fetch_queries_df (Ok svcq) today days limit = Raise OverflowError.
Proof.
  intros Hw.
  assert (Hs : (delta <- timedelta days ;; date_sub today delta)
               = Raise OverflowError).
  { unfold timedelta, date_sub.
    destruct (Z.leb_spec (Z.abs days) 999999999); simpl; [| reflexivity].
    destruct (Z.leb_spec date_min (today - days)); simpl; [| reflexivity].
    destruct (Z.leb_spec (today - days) date_max); simpl; [| reflexivity].
    exfalso; apply Hw; unfold window_ok; lia. }
  unfold timedelta, date_sub in Hs.
  split; [destruct f |];
    unfold fetch_time_series, fetch_site_data, fetch_page_data,
      fetch_keyword_data, fetch_queries_df, timedelta, date_sub; simpl;
    destruct (Z.abs days <=? 999999999); simpl in *; try reflexivity;
    destruct ((date_min <=? today - days) && (today - days <=? date_max));
    simpl in *; try reflexivity; discriminate.
Qed.

Lemma strictly_increasing_inv (a : date) (l : list date) :
  strictly_increasing (a :: l) ->
  strictly_increasing l /\ Forall (fun d => a < d) l.
Proof. intros H; now apply StronglySorted_inv in H. Qed.

(** Two tables with the same rows, both in strictly increasing date order,
    are the same table. *)
Lemma sorted_perm_unique (l1 l2 : list Point) :
  Permutation l1 l2 ->
  strictly_increasing (dates_of l1) -> strictly_increasing (dates_of l2) ->
  l1 = l2.
Proof.
  revert l2; induction l1 as [| a l1 IH]; intros l2 Hp H1 H2.
  - apply Permutation_nil in Hp; now subst.
  - destruct l2 as [| b l2];
      [apply Permutation_sym, Permutation_nil in Hp; discriminate |].
    simpl in H1, H2.
    apply strictly_increasing_inv in H1; destruct H1 as [H1 Ha].
    apply strictly_increasing_inv in H2; destruct H2 as [H2 Hb].
    assert (Hab : a = b).
    { assert (Ia : In a (b :: l2))
        by (eapply Permutation_in; [exact Hp | now left]).
      assert (Ib : In b (a :: l1))
        by (eapply Permutation_in; [symmetry; exact Hp | now left]).
      destruct Ia as [-> | Ia]; [reflexivity |].
      destruct Ib as [-> | Ib]; [reflexivity |].
      rewrite Forall_forall in Ha, Hb.
      pose proof (Ha (ds b) (in_map ds _ _ Ib)).
      pose proof (Hb (ds a) (in_map ds _ _ Ia)).
      lia. }
    subst b; f_equal; apply IH; trivial.
    now apply Permutation_cons_inv in Hp.
Qed.

Lemma sorted_rows_distinct (rs : list (Row date)) :
  NoDup (map (fun r => ds (point_of_row r)) rs) ->
  strictly_increasing (dates_of (sort_values_ds (map point_of_row rs))).
Proof.
  intros Hn; apply non_decreasing_nodup; [apply sort_values_ds_sorted |].
  eapply Permutation_NoDup.
  - apply Permutation_map; symmetry; apply sort_values_ds_perm.
  - now rewrite map_map.
Qed.

Lemma sum_int_perm (l l' : list Z) :
  Permutation l l' -> sum_int l = sum_int l'.
Proof. induction 1; simpl; lia. Qed.

(** X8.  The order in which the remote source lists its rows does not
    matter: two responses with the same rows, each date once, give the
    same table. *)
Theorem fetch_order_independent (f : TimeSeriesFetch)
    (svc1 svc2 : Service date) (today : date) (days : Z)
    (resp1 resp2 : Response date) :
  window_ok today days ->
  svc1 (time_series_body f today days) = Ok resp1 ->
  svc2 (time_series_body f today days) = Ok resp2 ->
  Permutation (get (rows resp1) []) (get (rows resp2) []) ->
  Forall has_first_key (get (rows resp1) []) ->
  NoDup (map (fun r => ds (point_of_row r)) (get (rows resp1) [])) ->
  fetch_time_series f (Ok svc1) today days
  = fetch_time_series f (Ok svc2) today days.
Proof.
  intros Hw H1 H2 Hp Hk Hn.
  assert (Hk2 : Forall has_first_key (get (rows resp2) []))
    by (eapply Permutation_Forall; eassumption).
  assert (Hn2 : NoDup (map (fun r => ds (point_of_row r))
                         (get (rows resp2) [])))
    by (eapply Permutation_NoDup; [apply Permutation_map; exact Hp | exact Hn]).
  rewrite !fetch_time_series_request by exact Hw.
  rewrite H1, H2; simpl.
  rewrite !time_series_frame_ok by assumption.
  f_equal; apply sorted_perm_unique; try now apply sorted_rows_distinct.
  rewrite !sort_values_ds_perm; now apply Permutation_map.
Qed.

(** X9.  A response that already lists its rows by strictly increasing
    date comes back row for row in the response's order. *)
Theorem fetch_keeps_sorted_response (f : TimeSeriesFetch)
    (svc : Service date) (today : date) (days : Z) (resp : Response date) :
  window_ok today days ->
  svc (time_series_body f today days) = Ok resp ->
  Forall has_first_key (get (rows resp) []) ->
  strictly_increasing
    (map (fun r => ds (point_of_row r)) (get (rows resp) [])) ->
  fetch_time_series f (Ok svc) today days
  = Ok (map point_of_row (get (rows resp) [])).
Proof.
  intros Hw Hr Hk Hs.
  rewrite (fetch_time_series_request f svc today days Hw), Hr; simpl.
  rewrite time_series_frame_ok by exact Hk.
  f_equal; apply sorted_perm_unique.
  - apply sort_values_ds_perm.
  - apply sorted_rows_distinct; now apply strictly_increasing_nodup.
  - unfold dates_of; now rewrite map_map.
Qed.

(** X10.  As long as the reported click counts and their sum fit in 64
    bits, so that the column's sum does not wrap, the total the first tab
    shows for a fetched series is the sum of the click counts the remote
    source reported, a row without ["clicks"] counting as 0. *)
Theorem total_is_reported_clicks (f : TimeSeriesFetch) (svc : Service date)
    (today : date) (days : Z) (resp : Response date) (df : list Point) :
  window_ok today days ->
  svc (time_series_body f today days) = Ok resp ->
  fetch_time_series f (Ok svc) today days = Ok df ->
  Forall (fun r => int64 (get (clicks r) 0)) (get (rows resp) []) ->
  int64 (sum_int (map (fun r => get (clicks r) 0) (get (rows resp) []))) ->
  total (key_insights df)
  = sum_int (map (fun r => get (clicks r) 0) (get (rows resp) []))
  /\ int64 (total (key_insights df)).
Proof.
  intros Hw Hr Hf _ Hsum.
  assert (Ht : total (key_insights df)
               = sum_int (map (fun r => get (clicks r) 0)
                            (get (rows resp) [])));
    [| split; [exact Ht | now rewrite Ht]].
  clear Hsum.
  destruct (fetch_time_series_inv f svc today days resp df Hw Hr Hf)
    as [_ ->].
  unfold key_insights; simpl.
  rewrite (sum_int_perm _ (map y (map point_of_row (get (rows resp) [])))).
  - now rewrite map_map.
  - apply Permutation_map, sort_values_ds_perm.
Qed.

(* ===================================================================== *)
(** ** The key insights of the first tab *)
(* ===================================================================== *)

Lemma rint_comp (q q' : Q) : Qeq q q' -> rint q = rint q'.
Proof.
  intros H; unfold rint.
  rewrite (Qfloor_comp q q' H).
  assert (E : Qcompare (q - inject_Z (Qfloor q')) (1 # 2)
              = Qcompare (q' - inject_Z (Qfloor q')) (1 # 2)).
  { apply Qcompare_comp; [| reflexivity].
    apply Qplus_comp; [exact H | reflexivity]. }
  now rewrite E.
Qed.

Lemma round2_value (q v w : Q) :
  Qeq q v -> Qeq (Qmake (rint (v * 100)) 100) w ->
  float_is (round2 (Fin q)) w.
Proof.
  intros Hq Hw; exists (Qmake (rint (q * 100)) 100); split; [reflexivity |].
  rewrite (rint_comp (q * 100) (v * 100)); [exact Hw |].
  now rewrite Hq.
Qed.

Lemma ratio_zero (s n : Z) :
  0 < n -> Qeq_bool (inject_Z s / inject_Z n) 0 = (s =? 0).
Proof.
  intros Hn.
  destruct (Z.eqb_spec s 0) as [-> | Hs].
  - apply Qeq_bool_iff; unfold Qdiv; simpl; ring.
  - destruct (Qeq_bool (inject_Z s / inject_Z n) 0) eqn:E; [| reflexivity].
    apply Qeq_bool_iff in E.
    exfalso; apply Hs.
    assert (Hn' : ~ Qeq (inject_Z n) 0).
    { intros H; unfold Qeq in H; simpl in H; lia. }
    assert (H0 : Qeq (inject_Z s) 0).
    { rewrite <- (Qmult_div_r (inject_Z s) (inject_Z n) Hn'), E; ring. }
    unfold Qeq in H0; simpl in H0; lia.
Qed.

Lemma zero_change (m : Q) : Qeq (((m + - m) / m) * 100) 0.
Proof. unfold Qdiv; ring. Qed.

Lemma full_drop (n : Z) :
  Qeq (((inject_Z 0 / inject_Z n + - 1) / 1) * 100) (-100).
Proof.
  unfold Qdiv; change (inject_Z 0) with 0%Q; change (/ 1)%Q with 1%Q; ring.
Qed.

Lemma mean_int_rows (l : list Z) :
  l <> [] ->
  mean_int l
  = Fin (inject_Z (sum_int l) / inject_Z (Z.of_nat (List.length l))).
Proof. destruct l; [contradiction | reflexivity]. Qed.

Lemma head_rows {A : Type} (n : nat) (l : list A) :
  l <> [] -> head (S n) l <> [].
Proof. destruct l; [contradiction | discriminate]. Qed.

Lemma tail_rows {A : Type} (n : nat) (l : list A) :
  l <> [] -> tail (S n) l <> [].
Proof.
  intros Hl Ht; unfold tail in Ht.
  assert (Hlen : List.length (skipn (List.length l - S n) l) = 0%nat)
    by now rewrite Ht.
  rewrite length_skipn in Hlen.
  destruct l; [contradiction | cbn [List.length] in Hlen; lia].
Qed.

Lemma map_rows {A B : Type} (f : A -> B) (l : list A) :
  l <> [] -> map f l <> [].
Proof. destruct l; [contradiction | discriminate]. Qed.

Lemma rows_counted {A : Type} (l : list A) :
  l <> [] -> 0 < Z.of_nat (List.length l).
Proof. destruct l; [contradiction | simpl; lia]. Qed.

(** The trend of a non-empty series, with the guard [or 1] resolved on the
    sum of the first seven values. *)
Lemma pct_shape (df : list Point) :
  df <> [] ->
  let m1 := (inject_Z (sum_int (map y (tail 7 df)))
             / inject_Z (Z.of_nat (List.length (map y (tail 7 df)))))%Q in
  let m0 := (inject_Z (sum_int (map y (head 7 df)))
             / inject_Z (Z.of_nat (List.length (map y (head 7 df)))))%Q in
  let d := if sum_int (map y (head 7 df)) =? 0 then 1%Q else m0 in
  pct (key_insights df) = round2 (Fin (((m1 + - d) / d) * 100)).
Proof.
  intros Hdf m1 m0 d; unfold key_insights; cbn [pct].
  assert (Hh : map y (head 7 df) <> []) by now apply map_rows, head_rows.
  assert (Ht : map y (tail 7 df) <> []) by now apply map_rows, tail_rows.
  rewrite (mean_int_rows _ Hh), (mean_int_rows _ Ht).
  fold m0 m1; unfold or_else, truthy.
  pose proof (ratio_zero (sum_int (map y (head 7 df))) _ (rows_counted _ Hh))
    as Hz.
  fold m0 in Hz; subst d; rewrite Hz.
  destruct (sum_int (map y (head 7 df)) =? 0) eqn:Hs; cbn [negb].
  - reflexivity.
  - unfold fsub, fneg, fadd, fdiv, fscale; rewrite Hz; reflexivity.
Qed.

(** X11.  On every non-empty series the trend percentage and the average
    are ordinary numbers: the divisor of the trend is never zero, since a
    zero mean of the first seven rows is replaced by 1. *)
Theorem insights_are_finite (df : list Point) :
  df <> [] ->
  finite (pct (key_insights df)) /\ finite (avg (key_insights df)).
Proof.
  intros Hdf; split.
  - rewrite (pct_shape df Hdf); eexists; reflexivity.
  - unfold key_insights; cbn [avg].
    rewrite mean_int_rows by now apply map_rows.
    eexists; reflexivity.
Qed.

(** X12.  With at most seven rows the "last seven" and the "first seven"
    rows are the same rows, so the trend is 0 percent; unless the clicks
    sum to 0, where the replaced divisor makes it -100 percent.  This is
    for click counts of magnitude up to 2^50, whose float64 sums over
    seven rows are exact, so that the mean is zero only when the sum
    is. *)
Theorem trend_of_short_series (df : list Point) :
  df <> [] -> (List.length df <= 7)%nat ->
  Forall (fun p => exact_in_float (y p)) df ->
  (sum_int (map y df) <> 0 -> float_is (pct (key_insights df)) 0)
  /\ (sum_int (map y df) = 0 -> float_is (pct (key_insights df)) (-100)).
Proof.
  intros Hdf Hlen _; rewrite (pct_shape df Hdf).
  assert (Hh : head 7 df = df) by now apply firstn_all2.
  assert (Ht : tail 7 df = df).
  { unfold tail; replace (List.length df - 7)%nat with 0%nat by lia.
    reflexivity. }
  rewrite Hh, Ht; split; intros Hs.
  - apply Z.eqb_neq in Hs; rewrite Hs.
    apply (round2_value _ 0); [apply zero_change | reflexivity].
  - rewrite Hs; cbn [Z.eqb].
    apply (round2_value _ (-100)); [apply full_drop | reflexivity].
Qed.

Lemma sum_int_zeros (l : list Point) :
  Forall (fun p => y p = 0) l -> sum_int (map y l) = 0.
Proof. induction 1 as [| p l Hp _ IH]; simpl; [reflexivity | lia]. Qed.

Lemma Forall_parts {A : Type} (P : A -> Prop) (n : nat) (l : list A) :
  Forall P l -> Forall P (firstn n l) /\ Forall P (skipn n l).
Proof.
  intros H; rewrite <- (firstn_skipn n l) in H.
  now apply Forall_app in H.
Qed.

(** X13.  A series without any click, of whatever length, is shown with a
    trend of -100 percent. *)
Theorem trend_of_silent_series (df : list Point) :
  df <> [] -> Forall (fun p => y p = 0) df ->
  float_is (pct (key_insights df)) (-100).
Proof.
  intros Hdf Hz; rewrite (pct_shape df Hdf).
  rewrite (sum_int_zeros (head 7 df))
    by apply (proj1 (Forall_parts _ 7 df Hz)).
  rewrite (sum_int_zeros (tail 7 df))
    by apply (proj2 (Forall_parts _ _ df Hz)).
  cbn [Z.eqb].
  apply (round2_value _ (-100)); [apply full_drop | reflexivity].
Qed.

(* ===================================================================== *)
(** ** More about the ranking panel *)
(* ===================================================================== *)

Lemma fadd_finite (a b : float) :
  finite (fadd a b) <-> finite a /\ finite b.
Proof.
  unfold finite; destruct a as [p | | |], b as [q | | |]; simpl; split;
    try (intros [x H]; discriminate H);
    try (intros [[x H] [x' H']]; (discriminate H || discriminate H')).
  - intros _; split; eexists; reflexivity.
  - intros _; eexists; reflexivity.
Qed.

Lemma fold_fadd_finite (l : list float) (acc : float) :
  finite (fold_left fadd l acc) <-> finite acc /\ Forall finite l.
Proof.
  revert acc; induction l as [| x l IH]; intros acc; simpl.
  - split; [intros H; split; [exact H | constructor] | tauto].
  - rewrite IH, fadd_finite; split.
    + intros [[Ha Hx] Hl]; split; [exact Ha | now constructor].
    + intros [Ha Hl]; inversion Hl; subst; tauto.
Qed.

Lemma fscale_finite (k : Q) (x : float) : finite (fscale k x) <-> finite x.
Proof.
  unfold finite; destruct x as [p | | |]; simpl; split; intros [q H];
    try discriminate H; eexists; reflexivity.
Qed.

Lemma round2_finite (x : float) : finite (round2 x) <-> finite x.
Proof.
  unfold finite; destruct x as [p | | |]; simpl; split; intros [q H];
    try discriminate H; eexists; reflexivity.
Qed.

Lemma mean_finite (xs : list float) :
  finite (mean xs)
  <-> filter (fun x => negb (isnan x)) xs <> []
      /\ Forall finite (filter (fun x => negb (isnan x)) xs).
Proof.
  unfold mean; destruct (filter (fun x => negb (isnan x)) xs) as [| x kept].
  - split; [intros [q H]; discriminate H | intros [H _]; contradiction].
  - rewrite fscale_finite, fold_fadd_finite; split.
    + intros [_ H]; split; [discriminate | exact H].
    + intros [_ H]; split; [eexists; reflexivity | exact H].
Qed.

Lemma row_ctr_cases (r : QueryRow) :
  (q_impressions r <> 0 /\ finite (row_ctr r))
  \/ (q_impressions r = 0 /\ q_clicks r = 0 /\ row_ctr r = NaN)
  \/ (q_impressions r = 0 /\ q_clicks r <> 0
      /\ (row_ctr r = PInf \/ row_ctr r = NInf)).
Proof.
  unfold row_ctr, true_divide.
  destruct (Z.eqb_spec (q_impressions r) 0) as [Hi | Hi].
  - right; destruct (Z.eqb_spec (q_clicks r) 0) as [Hc | Hc].
    + left; repeat split; assumption.
    + right; repeat split; try assumption.
      destruct (0 <? q_clicks r); [now left | now right].
  - left; split; [exact Hi | eexists; reflexivity].
Qed.

(** X14.  The average rate the ranking panel shows is an ordinary number
    exactly when some row has impressions and every row without
    impressions has no clicks either; otherwise it is infinite or NaN. *)
Theorem average_ctr_finite_iff (df_r : list QueryRow) (total_clicks : Z)
    (average : float) :
  keyword_ranking df_r = RankingMetrics total_clicks average ->
  (finite average
   <-> (exists r, In r df_r /\ q_impressions r <> 0)
       /\ (forall r, In r df_r -> q_impressions r = 0 -> q_clicks r = 0)).
Proof.
  intros Hk.
  assert (Ha : average = round2 (fscale 100 (mean (ctr_column df_r)))).
  { destruct df_r; [discriminate | now injection Hk]. }
  rewrite Ha, round2_finite, fscale_finite, mean_finite; clear Hk Ha.
  unfold ctr_column.
  set (kept := filter (fun x => negb (isnan x)) (map row_ctr df_r)).
  assert (Hin : forall x, In x kept
                          <-> exists r, In r df_r /\ row_ctr r = x
                                        /\ x <> NaN).
  { intros x; unfold kept; rewrite filter_In, in_map_iff; split.
    - intros [[r [Hr Hi]] Hx]; exists r; repeat split; trivial.
      intros ->; discriminate.
    - intros [r [Hi [Hr Hx]]]; split; [now exists r |].
      destruct x; trivial; contradiction. }
  split.
  - intros [Hne Hfin]; rewrite Forall_forall in Hfin.
    assert (Hzero : forall r, In r df_r -> q_impressions r = 0 ->
                              q_clicks r = 0).
    { intros r Hr Hi.
      destruct (row_ctr_cases r)
        as [[Hi' _] | [[_ [Hc _]] | [_ [_ Hinf]]]];
        [contradiction | exact Hc |].
      assert (Hk : In (row_ctr r) kept).
      { apply Hin; exists r; repeat split; trivial.
        destruct Hinf as [-> | ->]; discriminate. }
      apply Hfin in Hk; destruct Hk as [q Hq].
      destruct Hinf as [Hinf | Hinf]; rewrite Hinf in Hq; discriminate. }
    split; [| exact Hzero].
    destruct kept as [| x kept'] eqn:Hkept; [contradiction |].
    destruct (proj1 (Hin x) (or_introl eq_refl)) as [r [Hr [Hx Hnan]]].
    exists r; split; [exact Hr |].
    intros Hi; destruct (row_ctr_cases r)
      as [[Hi' _] | [[_ [_ Hn]] | [_ [Hc _]]]].
    + contradiction.
    + rewrite Hx in Hn; contradiction.
    + apply Hc; now apply Hzero.
  - intros [[r [Hr Hi]] Hzero]; split.
    + assert (Hk : In (row_ctr r) kept).
      { apply Hin; exists r; repeat split; trivial.
        destruct (row_ctr_cases r) as [[_ [q Hq]] | [[Hi' _] | [Hi' _]]];
          try contradiction.
        rewrite Hq; discriminate. }
      intros Hnil; rewrite Hnil in Hk; contradiction.
    + rewrite Forall_forall; intros x Hx.
      apply Hin in Hx; destruct Hx as [r' [Hr' [Hx Hnan]]].
      destruct (row_ctr_cases r')
        as [[_ Hf] | [[_ [_ Hn]] | [Hi' [Hc _]]]].
      * now rewrite <- Hx.
      * rewrite Hx in Hn; contradiction.
      * exfalso; apply Hc; now apply Hzero.
Qed.

Lemma kept_rates_without_empty_rows (df_r : list QueryRow) :
  filter (fun x => negb (isnan x))
    (map row_ctr (filter (fun r => negb (no_rate r)) df_r))
  = filter (fun x => negb (isnan x)) (map row_ctr df_r).
Proof.
  induction df_r as [| r df_r IH]; simpl; [reflexivity |].
  destruct (no_rate r) eqn:Hr; simpl; [| now rewrite IH].
  unfold no_rate in Hr; apply andb_true_iff in Hr; destruct Hr as [Hi Hc].
  apply Z.eqb_eq in Hi, Hc.
  unfold row_ctr at 2, true_divide; rewrite Hi, Hc; simpl; exact IH.
Qed.

Lemma clicks_without_empty_rows (df_r : list QueryRow) :
  fold_right Z.add 0 (map q_clicks (filter (fun r => negb (no_rate r)) df_r))
  = fold_right Z.add 0 (map q_clicks df_r).
Proof.
  induction df_r as [| r df_r IH]; simpl; [reflexivity |].
  destruct (no_rate r) eqn:Hr; simpl; [| now rewrite IH].
  unfold no_rate in Hr; apply andb_true_iff in Hr; destruct Hr as [_ Hc].
  apply Z.eqb_eq in Hc; lia.
Qed.

(** X15.  Rows with neither clicks nor impressions change nothing of what
    the ranking panel shows, as long as one other row is left: the total
    is the same and the average skips them. *)
Theorem ranking_ignores_empty_rows (df_r : list QueryRow) :
  filter (fun r => negb (no_rate r)) df_r <> [] ->
  keyword_ranking df_r
  = keyword_ranking (filter (fun r => negb (no_rate r)) df_r).
Proof.
  intros Hne.
  assert (Hdf : df_r <> []) by (intros ->; now apply Hne).
  unfold keyword_ranking.
  destruct (filter (fun r => negb (no_rate r)) df_r) as [| r' rest] eqn:Hf;
    [contradiction |].
  destruct df_r as [| r df_r]; [contradiction |].
  rewrite <- Hf, clicks_without_empty_rows.
  unfold mean, ctr_column; now rewrite kept_rates_without_empty_rows.
Qed.

(* ===================================================================== *)
(** ** The panels *)
(* ===================================================================== *)

Lemma fetch_nothing (f : TimeSeriesFetch) (svc : Service date)
    (today : date) (days : Z) :
  window_ok today days -> reports_nothing svc ->
  fetch_time_series f (Ok svc) today days = Ok [].
Proof.
  intros Hw Hn.
  destruct (Hn (time_series_body f today days)) as [resp [Hr Hrows]].
  rewrite (fetch_time_series_request f svc today days Hw), Hr; simpl.
  unfold time_series_frame; now rewrite Hrows.
Qed.

Lemma fetch_queries_nothing (svc : Service str) (today : date)
    (days limit : Z) :
  window_ok today days -> reports_nothing svc ->
  fetch_queries_df (Ok svc) today days limit = Ok [].
Proof.
  intros Hw Hn.
  destruct (Hn (queries_body today days limit)) as [resp [Hr Hrows]].
  rewrite (fetch_queries_request svc today days limit Hw), Hr; simpl.
  now rewrite Hrows.
Qed.

Lemma query_rows_of_keyed (rs : list (Row str)) :
  Forall has_first_key rs ->
  comprehension query_row rs
  = Ok (map (fun r => mkQueryRow (term_of_row r) (get (clicks r) 0)
                        (get (impressions r) 0)) rs).
Proof.
  induction 1 as [| r rs [k [rest Hr]] _ IH]; simpl; [reflexivity |].
  rewrite IH; unfold query_row, first_key, term_of_row; rewrite Hr.
  reflexivity.
Qed.

Lemma conf_above_threshold (t k : str) :
  (conf t k = 80 -> (70 <? conf t k) = true)
  /\ (conf t k = 50 -> (70 <? conf t k) = false).
Proof. split; intros ->; reflexivity. Qed.

(** X16.  When the remote source reports no rows, every panel that checks
    for an empty table shows its warning and goes no further: the site
    forecast of a matching title, the ranking, the page forecast and the
    keyword forecast. *)
Theorem panels_warn_without_rows
    (regression : Prophet -> date -> Q * (Q * Q)) (svc : Service date)
    (svcq : Service str) (today : date) (title keyword path kw : str)
    (d n : Z) :
  window_ok today MAX_HISTORY -> window_ok today d ->
  reports_nothing svc -> reports_nothing svcq ->
  conf title keyword = 80 ->
  snd (seo_tab regression (Ok svc) (Ok svcq) today title keyword)
  = Ok (SiteWarning "No GSC data for your site.")
  /\ ranking_tab (Ok svcq) today d n = Ok (RankingWarning "No query data.")
  /\ page_tab regression (Ok svc) today path
     = Ok (PanelWarning "No data for that page.")
  /\ keyword_tab regression (Ok svc) today kw
     = Ok (PanelWarning "No data for that keyword.").
Proof.
  intros Hw Hd Hn Hnq Hc.
  pose proof (fetch_nothing SiteData svc today MAX_HISTORY Hw Hn) as H1.
  pose proof (fetch_nothing (PageData path) svc today MAX_HISTORY Hw Hn)
    as H3.
  pose proof (fetch_nothing (KeywordData kw) svc today MAX_HISTORY Hw Hn)
    as H4.
  pose proof (fetch_queries_nothing svcq today d n Hd Hnq) as H2.
  cbn [fetch_time_series] in H1, H3, H4.
  unfold seo_tab, ranking_tab, page_tab, keyword_tab; cbn [snd].
  rewrite (proj1 (conf_above_threshold title keyword) Hc).
  rewrite H1, H2, H3, H4; repeat split.
Qed.

(** X17.  The list of alternative keywords has no such check: for a title
    without the keyword, a remote source that reports no rows makes the
    first tab raise KeyError on the ["keyword"] column, whatever the
    date-keyed service would do. *)
Theorem alternatives_need_rows
    (regression : Prophet -> date -> Q * (Q * Q))
    (gsc_dates : result (Service date)) (svcq : Service str) (today : date)
    (title keyword : str) (resp : Response str) :
  conf title keyword = 50 -> window_ok today 30 ->
  svcq (queries_body today 30 5) = Ok resp ->
  get (rows resp) [] = [] ->
  snd (seo_tab regression gsc_dates (Ok svcq) today title keyword)
  = Raise (KeyError "keyword").
Proof.
  intros Hc Hw Hr Hrows; unfold seo_tab; cbn [snd].
  rewrite (proj2 (conf_above_threshold title keyword) Hc).
  rewrite (fetch_queries_request svcq today 30 5 Hw), Hr; simpl.
  now rewrite Hrows.
Qed.

(** X18.  For a title without the keyword and a response with rows, each
    with a first key, the first tab lists the first key of every row, in
    the response's order and however many rows came back; missing metrics
    do not matter. *)
Theorem alternatives_list_reported_terms
    (regression : Prophet -> date -> Q * (Q * Q))
    (gsc_dates : result (Service date)) (svcq : Service str) (today : date)
    (title keyword : str) (resp : Response str) :
  conf title keyword = 50 -> window_ok today 30 ->
  svcq (queries_body today 30 5) = Ok resp ->
  get (rows resp) [] <> [] ->
  Forall has_first_key (get (rows resp) []) ->
  snd (seo_tab regression gsc_dates (Ok svcq) today title keyword)
  = Ok (AlternativeKeywords (map term_of_row (get (rows resp) []))).
Proof.
  intros Hc Hw Hr Hne Hk; unfold seo_tab; cbn [snd].
  rewrite (proj2 (conf_above_threshold title keyword) Hc).
  rewrite (fetch_queries_request svcq today 30 5 Hw), Hr; simpl.
  rewrite (query_rows_of_keyed _ Hk).
  destruct (get (rows resp) []) as [| r rs]; [contradiction |].
  simpl; now rewrite map_map.
Qed.

Lemma keyed_of_query_rows (rs : list (Row str)) (df : list QueryRow) :
  comprehension query_row rs = Ok df -> Forall has_first_key rs.
Proof.
  intros Hc; apply comprehension_ok_inv in Hc.
  induction Hc as [| r q rs qs Hq _ IH]; constructor; [| exact IH].
  apply query_row_has_key; now exists q.
Qed.

(** X19.  As long as the reported click counts and their sum fit in 64
    bits, so that the column's sum does not wrap, the total the ranking
    panel shows is the sum of the click counts the remote source reported,
    a row without ["clicks"] counting as 0. *)
Theorem ranking_total_is_reported_clicks (svcq : Service str) (today : date)
    (d n : Z) (resp : Response str) (total_clicks : Z) (average : float) :
  window_ok today d ->
  svcq (queries_body today d n) = Ok resp ->
  ranking_tab (Ok svcq) today d n = Ok (RankingMetrics total_clicks average) ->
  Forall (fun r => int64 (get (clicks r) 0)) (get (rows resp) []) ->
  int64 (sum_int (map (fun r => get (clicks r) 0) (get (rows resp) []))) ->
  total_clicks
  = sum_int (map (fun r => get (clicks r) 0) (get (rows resp) []))
  /\ int64 total_clicks.
Proof.
  intros Hw Hr Ht _ Hsum.
  assert (Hgoal : total_clicks
                  = sum_int (map (fun r => get (clicks r) 0)
                               (get (rows resp) [])));
    [| split; [exact Hgoal | now rewrite Hgoal]].
  clear Hsum.
  unfold ranking_tab in Ht.
  rewrite (fetch_queries_request svcq today d n Hw), Hr in Ht; simpl in Ht.
  destruct (comprehension query_row (get (rows resp) [])) as [df | e] eqn:Hc;
    simpl in Ht; [| discriminate].
  pose proof (keyed_of_query_rows _ _ Hc) as Hk.
  rewrite (query_rows_of_keyed _ Hk) in Hc; injection Hc as <-.
  destruct (get (rows resp) []) as [| r rs]; [discriminate |].
  injection Ht as <- _; unfold sum_int; now rewrite map_map.
Qed.

Lemma head_of_app {A : Type} (a l : list A) :
  head (List.length a) (a ++ l) = a.
Proof.
  unfold head; rewrite firstn_app, firstn_all, Nat.sub_diag; simpl.
  apply app_nil_r.
Qed.

Lemma tail_of_app {A : Type} (l b : list A) :
  tail (List.length b) (l ++ b) = b.
Proof.
  unfold tail; rewrite length_app.
  replace (List.length l + List.length b - List.length b)%nat
    with (List.length l) by lia.
  rewrite skipn_app, skipn_all, Nat.sub_diag; reflexivity.
Qed.

(** X20.  The trend compares the last seven rows with the first seven
    rows of the whole series: whatever lies between them has no influence
    on it. *)
Theorem trend_compares_window_ends (first7 last7 mid mid' : list Point) :
  List.length first7 = 7%nat -> List.length last7 = 7%nat ->
  pct (key_insights (first7 ++ mid ++ last7))
  = pct (key_insights (first7 ++ mid' ++ last7)).
Proof.
  intros Ha Hb.
  pose proof (head_of_app first7 (mid ++ last7)) as H1.
  pose proof (head_of_app first7 (mid' ++ last7)) as H2.
  pose proof (tail_of_app (first7 ++ mid) last7) as H3.
  pose proof (tail_of_app (first7 ++ mid') last7) as H4.
  rewrite Ha in H1, H2; rewrite Hb, <- app_assoc in H3, H4.
  unfold key_insights; cbn [pct]; now rewrite H1, H2, H3, H4.
Qed.

(* ===================================================================== *)
(** ** The further statements at concrete inputs *)
(* ===================================================================== *)

Ltac nodup_by_cases :=
  repeat (apply NoDup_cons; [simpl; intuition discriminate |]);
  apply NoDup_nil.

Ltac keyed_by_rows :=
  repeat (apply Forall_cons; [eexists; eexists; reflexivity |]);
  apply Forall_nil.

Lemma conf_preorder_witness :
  conf (py "SEO Tools Guide") (py "seo tools") = 80
  /\ conf (py "seo tools") (py " TOOLS ") = 80
  /\ conf (py "SEO Tools Guide") (py " TOOLS ") = 80.
Proof.
  split; [reflexivity |]; split; [reflexivity |].
  exact (proj1 (conf_preorder (py "SEO Tools Guide") (py "seo tools")
                  (py " TOOLS ") eq_refl eq_refl)).
Defined.

Lemma conf_blank_witness :
  blank (py "  ") /\ conf (py "SEO Tools Guide") (py "  ") = 80.
Proof.
  assert (Hw : blank (py "  ")) by (unfold blank, py; simpl; blank_by_chars).
  split; [exact Hw |].
  exact (proj1 (conf_blank (py "  ") (py "SEO Tools Guide") (py "seo") Hw)).
Defined.

Lemma conf_longer_keyword_witness :
  (List.length (strip (py " seo ")) < List.length (strip (py "seo tools")))%nat
  /\ conf (py " seo ") (py "seo tools") = 50.
Proof.
  assert (H : (List.length (strip (py " seo "))
               < List.length (strip (py "seo tools")))%nat)
    by (apply Nat.ltb_lt; reflexivity).
  split; [exact H |].
  exact (conf_longer_keyword (py " seo ") (py "seo tools") H).
Defined.

Lemma conf_title_extension_witness :
  conf (py "seo tools") (py "SEO") = 80
  /\ conf (py "Best " ++ py "seo tools" ++ py " 2024") (py "SEO") = 80.
Proof.
  split; [reflexivity |].
  exact (conf_title_extension (py "Best ") (py " 2024") (py "seo tools")
           (py "SEO") eq_refl).
Defined.

Lemma fetch_time_series_row_error_witness :
  window_ok sample_today 30
  /\ fetch_site_data (Ok keyless_service) sample_today 30
     = Raise (KeyError "keys").
Proof.
  assert (Hw : window_ok sample_today 30) by window_by_lia.
  split; [exact Hw |].
  apply (proj2 (fetch_time_series_row_error SiteData keyless_service
                  sample_today 30 keyless_response (KeyError "keys")
                  Hw eq_refl)).
  exists [mkRow (Some [739921]) (Some 1) None], (mkRow None (Some 2) None),
    [mkRow (Some []) (Some 3) None].
  split; [reflexivity |]; split; [keyed_by_rows |].
  left; split; reflexivity.
Defined.

Lemma fetch_queries_row_error_witness :
  window_ok sample_today 30
  /\ fetch_queries_df (Ok keyless_terms_service) sample_today 30 5
     = Raise IndexError.
Proof.
  assert (Hw : window_ok sample_today 30) by window_by_lia.
  split; [exact Hw |].
  apply (proj2 (fetch_queries_row_error keyless_terms_service sample_today
                  30 5 keyless_terms_response IndexError Hw eq_refl)).
  exists [mkRow (Some [py "seo"]) None None],
    (mkRow (Some []) (Some 1) (Some 2)), [].
  split; [reflexivity |]; split; [keyed_by_rows |].
  right; split; reflexivity.
Defined.

Lemma fetch_days_out_of_window_witness :
  ~ window_ok sample_today sample_today
  /\ fetch_site_data (Ok daily_service) sample_today sample_today
     = Raise OverflowError.
Proof.
  assert (Hw : ~ window_ok sample_today sample_today).
  { unfold window_ok, sample_today, date_min; intros [_ [H _]]; lia. }
  split; [exact Hw |].
  exact (proj1 (fetch_days_out_of_window SiteData daily_service
                  (empty_service str) sample_today sample_today 5 Hw)).
Defined.

Lemma fetch_order_independent_witness :
  window_ok sample_today 2
  /\ Permutation (get (rows sample_response) [])
       (get (rows shuffled_response) [])
  /\ fetch_site_data (Ok sample_service) sample_today 2
     = fetch_site_data (Ok shuffled_service) sample_today 2.
Proof.
  assert (Hw : window_ok sample_today 2) by window_by_lia.
  assert (Hp : Permutation (get (rows sample_response) [])
                 (get (rows shuffled_response) [])).
  { simpl; symmetry.
    apply (Permutation_cons_app
             [mkRow (Some [739921]) (Some 0) None;
              mkRow (Some [739922]) (Some 1) None] []).
    simpl; apply Permutation_refl. }
  assert (Hk : Forall has_first_key (get (rows sample_response) []))
    by (simpl; keyed_by_rows).
  assert (Hn : NoDup (map (fun r => ds (point_of_row r))
                        (get (rows sample_response) [])))
    by (simpl; nodup_by_cases).
  split; [exact Hw |]; split; [exact Hp |].
  exact (fetch_order_independent SiteData sample_service shuffled_service
           sample_today 2 sample_response shuffled_response
           Hw eq_refl eq_refl Hp Hk Hn).
Defined.

Lemma fetch_keeps_sorted_response_witness :
  window_ok sample_today 2
  /\ fetch_keyword_data (Ok sample_service) sample_today (py "seo") 2
     = Ok sample_series.
Proof.
  assert (Hw : window_ok sample_today 2) by window_by_lia.
  assert (Hk : Forall has_first_key (get (rows sample_response) []))
    by (simpl; keyed_by_rows).
  assert (Hs : strictly_increasing
                 (map (fun r => ds (point_of_row r))
                    (get (rows sample_response) []))).
  { unfold strictly_increasing; simpl.
    repeat (apply SSorted_cons;
            [| repeat (apply Forall_cons; [lia |]); apply Forall_nil]).
    apply SSorted_nil. }
  split; [exact Hw |].
  exact (fetch_keeps_sorted_response (KeywordData (py "seo")) sample_service
           sample_today 2 sample_response Hw eq_refl Hk Hs).
Defined.

Lemma total_is_reported_clicks_witness :
  window_ok sample_today 2
  /\ fetch_site_data (Ok shuffled_service) sample_today 2 = Ok sample_series
  /\ Forall (fun r => int64 (get (clicks r) 0))
       (get (rows shuffled_response) [])
  /\ total (key_insights sample_series) = 3.
Proof.
  assert (Hw : window_ok sample_today 2) by window_by_lia.
  assert (Hall : Forall (fun r => int64 (get (clicks r) 0))
                   (get (rows shuffled_response) [])).
  { simpl; repeat (apply Forall_cons; [unfold int64; simpl; lia |]).
    apply Forall_nil. }
  assert (Hsum : int64 (sum_int (map (fun r => get (clicks r) 0)
                                   (get (rows shuffled_response) []))))
    by (unfold int64; simpl; lia).
  split; [exact Hw |]; split; [reflexivity |]; split; [exact Hall |].
  exact (proj1 (total_is_reported_clicks SiteData shuffled_service
                  sample_today 2 shuffled_response sample_series
                  Hw eq_refl eq_refl Hall Hsum)).
Defined.

Lemma insights_are_finite_witness :
  flat_week <> [] /\ finite (pct (key_insights flat_week)).
Proof.
  assert (H : flat_week <> []) by discriminate.
  split; [exact H |].
  exact (proj1 (insights_are_finite flat_week H)).
Defined.

Lemma trend_of_short_series_witness :
  (List.length flat_week <= 7)%nat
  /\ sum_int (map y flat_week) <> 0
  /\ float_is (pct (key_insights flat_week)) 0.
Proof.
  assert (H : flat_week <> []) by discriminate.
  assert (Hl : (List.length flat_week <= 7)%nat)
    by (apply Nat.leb_le; reflexivity).
  assert (Hs : sum_int (map y flat_week) <> 0) by discriminate.
  assert (Hb : Forall (fun p => exact_in_float (y p)) flat_week).
  { repeat (apply Forall_cons; [unfold exact_in_float; simpl; lia |]).
    apply Forall_nil. }
  split; [exact Hl |]; split; [exact Hs |].
  exact (proj1 (trend_of_short_series flat_week H Hl Hb) Hs).
Defined.

Lemma trend_of_silent_series_witness :
  Forall (fun p => y p = 0) silent_week
  /\ float_is (pct (key_insights silent_week)) (-100).
Proof.
  assert (H : silent_week <> []) by discriminate.
  assert (Hz : Forall (fun p => y p = 0) silent_week)
    by (repeat (apply Forall_cons; [reflexivity |]); apply Forall_nil).
  split; [exact Hz |].
  exact (trend_of_silent_series silent_week H Hz).
Defined.

Lemma average_ctr_finite_iff_witness :
  keyword_ranking sample_ranking = RankingMetrics 5 (Fin (Qmake 1000 100))
  /\ finite (Fin (Qmake 1000 100)).
Proof.
  split; [reflexivity |].
  apply (proj2 (average_ctr_finite_iff sample_ranking 5
                  (Fin (Qmake 1000 100)) eq_refl)).
  split.
  - exists (mkQueryRow (py "seo audit") 5 50); split; [now left |].
    discriminate.
  - intros r [<- | [<- | []]]; [discriminate | reflexivity].
Defined.

Lemma ranking_ignores_empty_rows_witness :
  filter (fun r => negb (no_rate r)) sample_ranking <> []
  /\ keyword_ranking sample_ranking
     = keyword_ranking [mkQueryRow (py "seo audit") 5 50].
Proof.
  assert (H : filter (fun r => negb (no_rate r)) sample_ranking <> [])
    by discriminate.
  split; [exact H |].
  exact (ranking_ignores_empty_rows sample_ranking H).
Defined.

Lemma empty_service_reports_nothing (K : Type) :
  reports_nothing (empty_service K).
Proof. intros body; exists (mkResponse None); split; reflexivity. Qed.

Lemma panels_warn_without_rows_witness :
  window_ok sample_today MAX_HISTORY
  /\ conf (py "SEO Tools Guide") (py "seo") = 80
  /\ page_tab flat_regression (Ok (empty_service date)) sample_today
       (py "/blog")
     = Ok (PanelWarning "No data for that page.").
Proof.
  assert (Hw : window_ok sample_today MAX_HISTORY) by window_by_lia.
  assert (Hd : window_ok sample_today 30) by window_by_lia.
  split; [exact Hw |]; split; [reflexivity |].
  exact (proj1 (proj2 (proj2
           (panels_warn_without_rows flat_regression (empty_service date)
              (empty_service str) sample_today (py "SEO Tools Guide")
              (py "seo") (py "/blog") (py "seo") 30 10 Hw Hd
              (empty_service_reports_nothing date)
              (empty_service_reports_nothing str) eq_refl)))).
Defined.

Lemma alternatives_need_rows_witness :
  conf (py "Hello") (py "seo") = 50
  /\ window_ok sample_today 30
  /\ snd (seo_tab flat_regression (Ok sample_service)
            (Ok (empty_service str)) sample_today (py "Hello") (py "seo"))
     = Raise (KeyError "keyword").
Proof.
  assert (Hw : window_ok sample_today 30) by window_by_lia.
  split; [reflexivity |]; split; [exact Hw |].
  exact (alternatives_need_rows flat_regression (Ok sample_service)
           (empty_service str) sample_today (py "Hello") (py "seo")
           (mkResponse None) eq_refl Hw eq_refl eq_refl).
Defined.

Lemma alternatives_list_reported_terms_witness :
  conf (py "Hello") (py "seo") = 50
  /\ window_ok sample_today 30
  /\ snd (seo_tab flat_regression (Raise AuthError) (Ok terms_service)
            sample_today (py "Hello") (py "seo"))
     = Ok (AlternativeKeywords [py "seo audit"; py "seo tools"]).
Proof.
  assert (Hw : window_ok sample_today 30) by window_by_lia.
  assert (Hne : get (rows terms_response) [] <> []) by discriminate.
  assert (Hk : Forall has_first_key (get (rows terms_response) []))
    by (simpl; keyed_by_rows).
  split; [reflexivity |]; split; [exact Hw |].
  exact (alternatives_list_reported_terms flat_regression (Raise AuthError)
           terms_service sample_today (py "Hello") (py "seo") terms_response
           eq_refl Hw eq_refl Hne Hk).
Defined.

Lemma ranking_total_is_reported_clicks_witness :
  window_ok sample_today 30
  /\ ranking_tab (Ok terms_service) sample_today 30 10
     = Ok (RankingMetrics 5 (Fin (Qmake 500 100)))
  /\ 5 = sum_int (map (fun r => get (clicks r) 0)
                    (get (rows terms_response) [])).
Proof.
  assert (Hw : window_ok sample_today 30) by window_by_lia.
  assert (Hall : Forall (fun r => int64 (get (clicks r) 0))
                   (get (rows terms_response) [])).
  { simpl; repeat (apply Forall_cons; [unfold int64; simpl; lia |]).
    apply Forall_nil. }
  assert (Hsum : int64 (sum_int (map (fun r => get (clicks r) 0)
                                   (get (rows terms_response) []))))
    by (unfold int64; simpl; lia).
  split; [exact Hw |]; split; [reflexivity |].
  exact (proj1 (ranking_total_is_reported_clicks terms_service sample_today
                  30 10 terms_response 5 (Fin (Qmake 500 100))
                  Hw eq_refl eq_refl Hall Hsum)).
Defined.

Lemma trend_compares_window_ends_witness :
  List.length first_week = 7%nat
  /\ List.length last_week = 7%nat
  /\ pct (key_insights (first_week ++ sample_series ++ last_week))
     = pct (key_insights (first_week ++ [] ++ last_week)).
Proof.
  split; [reflexivity |]; split; [reflexivity |].
  exact (trend_compares_window_ends first_week last_week sample_series []
           eq_refl eq_refl).
Defined.
